(** * The Exolix fixed-rate swap plugin (src/swap/central/exolix.ts)

    A shallow embedding of [makeExolixPlugin]: the two remote operations
    ([rate] and [transactions]) behind [call], the negotiation
    [getFixedQuote] and the entry point [fetchSwapQuote], followed by the
    properties of the negotiation protocol.

    Conventions of the embedding.
    - A JavaScript [number] is kept abstract (class [JsNumber]): the plugin
      only parses, prints and forwards numbers, it never computes on them.
    - Native amounts are integer strings in the source, compared with
      biggystring's [lt]; they are carried as [Z] and compared with [Z.ltb].
    - Everything outside the plugin (the wallets, [fetchCors], the clock and
      the helpers imported from util/) acts on an abstract [World]; the
      plugin's own state is the chronological list of the fetches it issued.
    - [async]/[await] is sequencing. [Promise.all] over the two addresses
      starts both calls, in the order of the array, and lets both act on the
      world; when both are rejected, which rejection came first is the
      host's to tell. *)

From Stdlib Require Import ZArith String Ascii List Lia.
From Stdlib Require Import DecimalString DecimalPos DecimalZ.
From stdpp Require Import base gmap strings.
Import ListNotations.
Open Scope string_scope.
Set Warnings "-register-all".

(** ** Results of fallible code *)

Inductive result (E A : Type) : Type :=
| Ok (a : A)
| Err (e : E).
Arguments Ok {E A} a.
Arguments Err {E A} e.

Definition rbind {E A B} (r : result E A) (k : A -> result E B) : result E B :=
  match r with
  | Ok a => k a
  | Err e => Err e
  end.

Declare Scope result_scope.
Delimit Scope result_scope with result.
Notation "'try' x <- r ; k" := (rbind r (fun x => k))
  (at level 10, x name, r at level 100, k at level 200) : result_scope.

(** ** JavaScript values *)

(** What the plugin does with a JS [number]: [parseFloat], [toString] and the
    literal [0] used as the fallback of [asOptional(asNumber, 0)];
    [(0).toString()] is ["0"]. *)
Class JsNumber (number : Type) := {
  parseFloat : string -> number;
  Number_toString : number -> string;
  Number_zero : number;
  Number_zero_toString : Number_toString Number_zero = "0"
}.

(** Decimal rendering of an integer, as a template literal prints the HTTP
    status. *)
Definition Z_toString (z : Z) : string := NilZero.string_of_int (Z.to_int z).

(** Reading a decimal integer back. *)
Definition Z_ofString (s : string) : Z :=
  match NilZero.int_of_string s with
  | Some i => Z.of_int i
  | None => 0%Z
  end.

Definition ascii_toUpperCase (c : ascii) : ascii :=
  let n := nat_of_ascii c in
  if ((97 <=? n)%nat && (n <=? 122)%nat)%bool then ascii_of_nat (n - 32) else c.

(** [String.prototype.toUpperCase] on the ASCII letters; other characters are
    left as they are (no character outside a-z uppercases to B, T or C). *)
Fixpoint toUpperCase (s : string) : string :=
  match s with
  | EmptyString => EmptyString
  | String c rest => String (ascii_toUpperCase c) (toUpperCase rest)
  end.

Section Values.
Context {number : Type}.

Inductive JsValue : Type :=
| JUndefined
| JNull
| JBool (b : bool)
| JNum (n : number)
| JStr (s : string)
| JArr (items : list JsValue)
| JObj (props : list (string * JsValue)).

(** A plain JS object, keys in insertion order. *)
Definition JsObject : Type := list (string * JsValue).

Fixpoint lookupProp (key : string) (props : JsObject) : JsValue :=
  match props with
  | [] => JUndefined
  | (k, v) :: rest => if String.eqb k key then v else lookupProp key rest
  end.

(** [obj[key] = v]: overwrite in place, or add the key at the end. *)
Fixpoint setProp (key : string) (v : JsValue) (props : JsObject) : JsObject :=
  match props with
  | [] => [(key, v)]
  | (k, old) :: rest =>
      if String.eqb k key then (k, v) :: rest
      else (k, old) :: setProp key v rest
  end.

Definition hasProp (key : string) (props : JsObject) : bool :=
  existsb (fun kv => String.eqb (fst kv) key) props.

(** [raw[key]]: [undefined] when the key is missing or [raw] has no such
    property. *)
Definition getProp (key : string) (raw : JsValue) : JsValue :=
  match raw with
  | JObj props => lookupProp key props
  | _ => JUndefined
  end.

(** *** The cleaners library, as far as the plugin uses it.
    A cleaner returns the cleaned value or throws a [TypeError] with a
    message. The message kept here names what was expected; the library's
    text goes on with the value it got and the path of the field. *)

Definition Cleaner (T : Type) : Type := JsValue -> result string T.

Definition asString : Cleaner string := fun raw =>
  match raw with
  | JStr s => Ok s
  | _ => Err "Expected a string"
  end.

Definition asNumber : Cleaner number := fun raw =>
  match raw with
  | JNum n => Ok n
  | _ => Err "Expected a number"
  end.

Definition asNull : Cleaner unit := fun raw =>
  match raw with
  | JNull => Ok tt
  | _ => Err "Expected null"
  end.

(** [raw == null] holds for both [undefined] and [null]. *)
Definition isNullish (raw : JsValue) : bool :=
  match raw with
  | JUndefined | JNull => true
  | _ => false
  end.

(** [asOptional(cleaner, fallback)] *)
Definition asOptional {T} (cleaner : Cleaner T) (fallback : T) : Cleaner T :=
  fun raw => if isNullish raw then Ok fallback else cleaner raw.

(** [asOptional(cleaner)]: the fallback is [undefined]. *)
Definition asOptional_ {T} (cleaner : Cleaner T) : Cleaner (option T) :=
  fun raw =>
    if isNullish raw then Ok None
    else (try x <- cleaner raw; Ok (Some x))%result.

(** [asEither(a, b)]: [b] is tried when [a] throws. *)
Definition asEither {A B} (a : Cleaner A) (b : Cleaner B) : Cleaner (A + B) :=
  fun raw =>
    match a raw with
    | Ok x => Ok (inl x)
    | Err _ => (try y <- b raw; Ok (inr y))%result
    end.

(** [asMaybe(cleaner)]: [undefined] instead of an exception. *)
Definition asMaybe {T} (cleaner : Cleaner T) (raw : JsValue) : option T :=
  match cleaner raw with
  | Ok x => Some x
  | Err _ => None
  end.

(** The test [asObject] makes before it cleans the fields:
    [typeof raw === 'object' && raw != null]. *)
Definition isObject (raw : JsValue) : bool :=
  match raw with
  | JObj _ | JArr _ => true
  | _ => false
  end.

(** *** The two response shapes *)

Record RateResponse := {
  minAmount : number;
  withdrawMin : number;
  fromAmount : number;
  toAmount : number;
  message : string + unit
}.

Record QuoteInfo := {
  id : string;
  amount : number;
  amountTo : number;
  depositAddress : string;
  depositExtraId : option string
}.

Context `{JsNumber number}.

Definition asRateResponse : Cleaner RateResponse := fun raw =>
  if isObject raw then
    (try minAmount <- asNumber (getProp "minAmount" raw);
     try withdrawMin <- asOptional asNumber Number_zero (getProp "withdrawMin" raw);
     try fromAmount <- asNumber (getProp "fromAmount" raw);
     try toAmount <- asNumber (getProp "toAmount" raw);
     try message <- asEither asString asNull (getProp "message" raw);
     Ok {| minAmount := minAmount; withdrawMin := withdrawMin;
           fromAmount := fromAmount; toAmount := toAmount;
           message := message |})%result
  else Err "Expected an object".

Definition asQuoteInfo : Cleaner QuoteInfo := fun raw =>
  if isObject raw then
    (try id <- asString (getProp "id" raw);
     try amount <- asNumber (getProp "amount" raw);
     try amountTo <- asNumber (getProp "amountTo" raw);
     try depositAddress <- asString (getProp "depositAddress" raw);
     try depositExtraId <- asOptional_ asString (getProp "depositExtraId" raw);
     Ok {| id := id; amount := amount; amountTo := amountTo;
           depositAddress := depositAddress;
           depositExtraId := depositExtraId |})%result
  else Err "Expected an object".
End Values.
Arguments JsValue : clear implicits.
Arguments JsObject : clear implicits.
Arguments RateResponse : clear implicits.
Arguments QuoteInfo : clear implicits.
Arguments Cleaner : clear implicits.

(** ** Static configuration of the plugin *)

Record EdgeSwapInfo := {
  pluginId : string;
  isDex : bool;
  displayName : string;
  supportEmail : string
}.

Definition swapInfo : EdgeSwapInfo := {|
  pluginId := "exolix";
  isDex := false;
  displayName := "Exolix";
  supportEmail := "support@exolix.com"
|}.

(** [InvalidCurrencyCodes]: per side, plugin id to the currency codes that are
    refused on that side. *)
Record InvalidCurrencyCodes := {
  ic_from : gmap string (list string);
  ic_to : gmap string (list string)
}.

Definition INVALID_CURRENCY_CODES : InvalidCurrencyCodes := {|
  ic_from := ∅;
  ic_to := {[ "zcash" := ["ZEC"] ]}
|}.

Definition MAINNET_CODE_TRANSCRIPTION : gmap string string :=
  list_to_map [
    ("algorand", "ALGO"); ("arbitrum", "ARBITRUM"); ("avalanche", "AVAXC");
    ("binancesmartchain", "BSC"); ("bitcoin", "BTC"); ("bitcoincash", "BCH");
    ("cardano", "ADA"); ("celo", "CELO"); ("cosmoshub", "ATOM");
    ("dash", "DASH"); ("digibyte", "DGB"); ("dogecoin", "DOGE");
    ("eos", "EOS"); ("ethereum", "ETH"); ("ethereumclassic", "ETC");
    ("fantom", "FTM"); ("filecoin", "FIL"); ("hedera", "HBAR");
    ("litecoin", "LTC"); ("monero", "XMR"); ("optimism", "OPTIMISM");
    ("osmosis", "OSMO"); ("polkadot", "DOT"); ("qtum", "QTUM");
    ("ravencoin", "RVN"); ("ripple", "XRP"); ("solana", "SOL");
    ("stellar", "XLM"); ("telos", "TELOS"); ("tezos", "XTZ");
    ("thorchainrune", "RUNE"); ("tron", "TRX"); ("zcash", "ZEC")
  ].

Definition orderUri : string := "https://exolix.com/transaction/".
Definition uri : string := "https://exolix.com/api/v2/".

Definition expirationMs : Z := 1000 * 60.

(** ** The plugin *)

Inductive QuoteFor := quoteFrom | quoteMax | quoteTo.

(** The side a [SwapBelowLimitError] names. *)
Inductive Direction := dirFrom | dirTo.

Inductive Method := GET | POST.

Inductive MemoType := memoText | memoNumber | memoHex.

Inductive NetworkFeeOption := feeHigh | feeStandard | feeLow | feeCustom.

Section Plugin.
Context {number : Type} `{JsNumber number}.
(** The state of everything outside the plugin. *)
Context {World : Type}.
(** The request and the quote as the core hands and receives them. *)
Context {EdgeSwapRequest EdgeSwapQuote : Type}.

(** *** Wallets and requests *)

(** A rejection raised by a wallet; the plugin passes it on unchanged. *)
Definition WalletError : Type := string.

Definition External (A : Type) : Type := World -> result WalletError A * World.

Record EdgeCurrencyWallet := {
  wallet_id : string;
  currencyInfo_pluginId : string;
  nativeToDenomination : Z -> string -> External string;
  denominationToNative : string -> string -> External Z
}.

Record EdgeSwapRequestPlugin := {
  fromWallet : EdgeCurrencyWallet;
  toWallet : EdgeCurrencyWallet;
  fromTokenId : option string;
  toTokenId : option string;
  nativeAmount : Z;
  quoteFor : QuoteFor;
  fromCurrencyCode : string;
  toCurrencyCode : string
}.

(** *** What the plugin can throw *)

Inductive JsError :=
| SwapCurrencyError (info : EdgeSwapInfo) (request : EdgeSwapRequestPlugin)
| SwapBelowLimitError (info : EdgeSwapInfo) (nativeMin : Z) (direction : Direction)
| Error (msg : string)
| TypeError (msg : string)
| SyntaxError
| WalletRejection (e : WalletError)
| FetchRejection (e : string).

(** The generic error [call] raises for an unexpected HTTP status. *)
Definition ProviderError (status : Z) : JsError :=
  Error ("Exolix returned error code " +:+ Z_toString status).

(** *** The network *)

(** [json] is [None] when the body is not JSON ([response.json()] rejects). *)
Record EdgeFetchResponse := {
  ok : bool;
  status : Z;
  json : option (JsValue number)
}.

(** One call of [fetchCors]. A GET carries its parameters in the query
    string of the URL, a POST as its JSON body; both are kept structured. *)
Record FetchCall := {
  fc_url : string;
  fc_query : option (JsObject number);
  fc_method : Method;
  fc_headers : list (string * string);
  fc_body : option (JsObject number)
}.

(** *** The order *)

Record EdgeMemo := {
  memo_type : MemoType;
  memo_value : string
}.

Record EdgeSpendTarget := {
  target_nativeAmount : Z;
  publicAddress : string
}.

Record EdgeAssetAmount := {
  asset_pluginId : string;
  asset_tokenId : option string;
  asset_nativeAmount : Z
}.

Record EdgeTxActionSwap := {
  actionType : string;
  action_swapInfo : EdgeSwapInfo;
  orderId : string;
  action_orderUri : string;
  isEstimate : bool;
  toAsset : EdgeAssetAmount;
  fromAsset : EdgeAssetAmount;
  payoutAddress : string;
  payoutWalletId : string;
  refundAddress : string
}.

Record EdgeSpendInfo := {
  tokenId : option string;
  spendTargets : list EdgeSpendTarget;
  memos : list EdgeMemo;
  networkFeeOption : NetworkFeeOption;
  assetActionType : string;
  savedAction : EdgeTxActionSwap
}.

Record SwapOrder := {
  order_request : EdgeSwapRequestPlugin;
  spendInfo : EdgeSpendInfo;
  order_swapInfo : EdgeSwapInfo;
  fromNativeAmount : Z;
  expirationDate : Z
}.

(** *** The plugin's monad: exceptions over the world and the fetch log *)

Record State := {
  world : World;
  fetched : list FetchCall
}.

Definition M (A : Type) : Type := State -> result JsError A * State.

Definition ret {A} (a : A) : M A := fun st => (Ok a, st).

Definition throw {A} (e : JsError) : M A := fun st => (Err e, st).

Definition bind {A B} (m : M A) (k : A -> M B) : M B := fun st =>
  match m st with
  | (Ok a, st') => k a st'
  | (Err e, st') => (Err e, st')
  end.

(** An awaited call into a wallet or a helper: it moves the world on and
    leaves the fetch log alone. *)
Definition external {A} (op : External A) : M A := fun st =>
  match op (world st) with
  | (Ok a, w) => (Ok a, {| world := w; fetched := fetched st |})
  | (Err e, w) => (Err (WalletRejection e), {| world := w; fetched := fetched st |})
  end.

(** A cleaner applied to a value: its [TypeError] is thrown on. *)
Definition clean {T} (cleaner : Cleaner number T) (raw : JsValue number) : M T :=
  match cleaner raw with
  | Ok x => ret x
  | Err msg => throw (TypeError msg)
  end.

Definition liftResult {A} (r : result JsError A) : M A := fun st => (r, st).

Record Codes := {
  codes_fromCurrencyCode : string;
  codes_toCurrencyCode : string;
  fromMainnetCode : string;
  toMainnetCode : string
}.

(** *** The collaborators the plugin is built over: [opts] and the helpers
    imported from util/swapHelpers and util/utils. *)
Record Host := {
  apiKey : string;
  fetchCors : FetchCall -> World -> result string EdgeFetchResponse * World;
  Date_now : World -> Z;
  getAddress : EdgeCurrencyWallet -> External string;
  memoType : string -> MemoType;
  getCodesWithTranscription :
    EdgeSwapRequestPlugin -> gmap string string -> Codes;
  convertRequest : EdgeSwapRequest -> EdgeSwapRequestPlugin;
  getMaxSwappable :
    (EdgeSwapRequestPlugin -> M SwapOrder) ->
    EdgeSwapRequestPlugin -> M EdgeSwapRequestPlugin;
  makeSwapPluginQuote : SwapOrder -> M EdgeSwapQuote;
  (** The scheduling of two rejected promises: whether, in the world both
      left, the one listed first was rejected first. *)
  firstRejectedFirst : World -> bool
}.
End Plugin.
Arguments EdgeCurrencyWallet : clear implicits.
Arguments EdgeSwapRequestPlugin : clear implicits.
Arguments JsError : clear implicits.
Arguments EdgeFetchResponse : clear implicits.
Arguments FetchCall : clear implicits.
Arguments SwapOrder : clear implicits.
Arguments State : clear implicits.
Arguments M : clear implicits.
Arguments External : clear implicits.
Arguments Host : clear implicits.

Declare Scope plugin_scope.
Delimit Scope plugin_scope with plugin.
Notation "'await' x <- m ; k" := (bind m (fun x => k))
  (at level 10, x name, m at level 100, k at level 200) : plugin_scope.
Notation "'run' m ; k" := (bind m (fun _ => k))
  (at level 10, m at level 100, k at level 200) : plugin_scope.

Section Exolix.
Context {number : Type} `{JsNumber number}.
Context {World EdgeSwapRequest EdgeSwapQuote : Type}.

Local Abbreviation Request := (EdgeSwapRequestPlugin World).
Local Abbreviation Order := (SwapOrder World).
Local Abbreviation Plugin := (M number World).

Variable host : Host number World EdgeSwapRequest EdgeSwapQuote.

Local Open Scope plugin_scope.

(** [fetchCors(url, opts)]: the call is recorded when it is issued. *)
Definition fetch (c : FetchCall number) : Plugin (EdgeFetchResponse number) :=
  fun st =>
    let '(r, w) := fetchCors host c (world st) in
    let st' := {| world := w; fetched := fetched st ++ [c] |} in
    match r with
    | Ok response => (Ok response, st')
    | Err e => (Err (FetchRejection e), st')
    end.

(** [response.json()] *)
Definition response_json (response : EdgeFetchResponse number)
  : Plugin (JsValue number) :=
  match json response with
  | Some v => ret v
  | None => throw SyntaxError
  end.

Definition headers : list (string * string) :=
  [("Accept", "application/json");
   ("Content-Type", "application/json");
   ("Authorization", apiKey host)].

(** The arguments [call] hands to [fetchCors]: a POST sends
    [JSON.stringify(params)] as its body, a GET sends
    [new URLSearchParams(params)] in its URL. *)
Definition fetchArgs (method : Method) (route : string)
    (params : JsObject number) : FetchCall number :=
  match method with
  | POST =>
      {| fc_url := uri +:+ route; fc_query := None;
         fc_method := method; fc_headers := headers;
         fc_body := Some params |}
  | GET =>
      {| fc_url := uri +:+ route; fc_query := Some params;
         fc_method := method; fc_headers := headers;
         fc_body := None |}
  end.

(** [call(method, route, params)], a closure over [request]. The
    [log.warn] before the [SwapCurrencyError] has no effect on the result. *)
Definition call (request : Request) (method : Method) (route : string)
    (params : JsObject number) : Plugin (JsValue number) :=
  await response <- fetch (fetchArgs method route params);
  if negb (ok response) then
    if (status response =? 422)%Z then
      await resJson <- response_json response;
      match asMaybe asRateResponse resJson with
      | Some _ => ret resJson
      | None => throw (SwapCurrencyError swapInfo request)
      end
    else throw (ProviderError (status response))
  else response_json response.

(** The locals of [getFixedQuote] that outlive the rate call. *)
Record Prepared := {
  fromAddress : string;
  toAddress : string;
  quoteAmount : number;
  quoteParams : JsObject number
}.

Definition mkQuoteParams (request : Request) (codes : Codes)
    (quoteAmount : number) : JsObject number :=
  let quoteParams :=
    [("coinFrom", JStr (codes_fromCurrencyCode codes));
     ("coinFromNetwork", JStr (fromMainnetCode codes));
     ("coinTo", JStr (codes_toCurrencyCode codes));
     ("coinToNetwork", JStr (toMainnetCode codes));
     ("amount", JNum quoteAmount);
     ("rateType", JStr "fixed")] in
  match quoteFor request with
  | quoteTo => setProp "withdrawalAmount" (JNum quoteAmount) quoteParams
  | _ => quoteParams
  end.

(** [await Promise.all([a, b])]: both calls are started, [a] first, and both
    act on the world whether or not the other is rejected. The result is the
    pair of their values, or the rejection that came first. *)
Definition promiseAll {A B} (a : External World A) (b : External World B)
  : Plugin (A * B) := fun st =>
  let '(ra, w1) := a (world st) in
  let '(rb, w2) := b w1 in
  let st' := {| world := w2; fetched := fetched st |} in
  match ra, rb with
  | Ok x, Ok y => (Ok (x, y), st')
  | Err e, Ok _ => (Err (WalletRejection e), st')
  | Ok _, Err e => (Err (WalletRejection e), st')
  | Err e1, Err e2 =>
      (Err (WalletRejection (if firstRejectedFirst host w2 then e1 else e2)), st')
  end.

(** Lines 196-233: addresses, the decimal amount, the codes and the
    parameters of the rate call. *)
Definition prepareQuote (request : Request) : Plugin Prepared :=
  await addresses <-
    promiseAll (getAddress host (fromWallet request))
               (getAddress host (toWallet request));
  let fromAddress := fst addresses in
  let toAddress := snd addresses in
  await exchangeQuoteAmount <-
    match quoteFor request with
    | quoteFrom =>
        external (nativeToDenomination (fromWallet request)
                    (nativeAmount request) (fromCurrencyCode request))
    | _ =>
        external (nativeToDenomination (toWallet request)
                    (nativeAmount request) (toCurrencyCode request))
    end;
  let quoteAmount := parseFloat exchangeQuoteAmount in
  let codes := getCodesWithTranscription host request MAINNET_CODE_TRANSCRIPTION in
  ret {| fromAddress := fromAddress; toAddress := toAddress;
         quoteAmount := quoteAmount;
         quoteParams := mkQuoteParams request codes quoteAmount |}.

(** Line 236: [asRateResponse(await call('GET', 'rate', quoteParams))]. *)
Definition getRate (request : Request) (quoteParams : JsObject number)
  : Plugin (RateResponse number) :=
  await rateJson <- call request GET "rate" quoteParams;
  clean asRateResponse rateJson.

(** Lines 238-257: the rate minimum. *)
Definition checkRateMinimum (request : Request)
    (rateResponse : RateResponse number) : Plugin unit :=
  match quoteFor request with
  | quoteFrom =>
      await nativeMin <-
        external (denominationToNative (fromWallet request)
                    (Number_toString (minAmount rateResponse))
                    (fromCurrencyCode request));
      if (nativeAmount request <? nativeMin)%Z
      then throw (SwapBelowLimitError swapInfo nativeMin dirFrom)
      else ret tt
  | _ =>
      await nativeMin <-
        external (denominationToNative (toWallet request)
                    (Number_toString (withdrawMin rateResponse))
                    (toCurrencyCode request));
      if (nativeAmount request <? nativeMin)%Z
      then throw (SwapBelowLimitError swapInfo nativeMin dirTo)
      else ret tt
  end.

Definition mkExchangeParams (request : Request) (p : Prepared)
  : JsObject number :=
  let exchangeParams :=
    [("coinFrom", lookupProp "coinFrom" (quoteParams p));
     ("networkFrom", lookupProp "coinFromNetwork" (quoteParams p));
     ("coinTo", lookupProp "coinTo" (quoteParams p));
     ("networkTo", lookupProp "coinToNetwork" (quoteParams p));
     ("amount", JNum (quoteAmount p));
     ("withdrawalAddress", JStr (toAddress p));
     ("withdrawalExtraId", JStr EmptyString);
     ("refundAddress", JStr (fromAddress p));
     ("refundExtraId", JStr EmptyString);
     ("rateType", JStr "fixed")] in
  match quoteFor request with
  | quoteTo => setProp "withdrawalAmount" (JNum (quoteAmount p)) exchangeParams
  | _ => exchangeParams
  end.

(** Lines 259-279: the binding call. *)
Definition makeTransaction (request : Request) (p : Prepared)
  : Plugin (QuoteInfo number) :=
  await callJson <- call request POST "transactions" (mkExchangeParams request p);
  clean asQuoteInfo callJson.

Definition mkMemos (request : Request) (quoteInfo : QuoteInfo number)
  : list EdgeMemo :=
  match depositExtraId quoteInfo with
  | None => []
  | Some extraId =>
      [{| memo_type := memoType host (currencyInfo_pluginId (fromWallet request));
          memo_value := extraId |}]
  end.

Definition mkSpendInfo (request : Request) (p : Prepared)
    (quoteInfo : QuoteInfo number) (fromNativeAmount toNativeAmount : Z)
  : EdgeSpendInfo :=
  {| tokenId := fromTokenId request;
     spendTargets :=
       [{| target_nativeAmount := fromNativeAmount;
           publicAddress := depositAddress quoteInfo |}];
     memos := mkMemos request quoteInfo;
     networkFeeOption :=
       if String.eqb (toUpperCase (fromCurrencyCode request)) "BTC"
       then feeHigh else feeStandard;
     assetActionType := "swap";
     savedAction :=
       {| actionType := "swap";
          action_swapInfo := swapInfo;
          orderId := id quoteInfo;
          action_orderUri := orderUri +:+ id quoteInfo;
          isEstimate := false;
          toAsset :=
            {| asset_pluginId := currencyInfo_pluginId (toWallet request);
               asset_tokenId := toTokenId request;
               asset_nativeAmount := toNativeAmount |};
          fromAsset :=
            {| asset_pluginId := currencyInfo_pluginId (fromWallet request);
               asset_tokenId := fromTokenId request;
               asset_nativeAmount := fromNativeAmount |};
          payoutAddress := toAddress p;
          payoutWalletId := wallet_id (toWallet request);
          refundAddress := fromAddress p |} |}.

(** [Date.now()] *)
Definition dateNow : Plugin Z := fun st => (Ok (Date_now host (world st)), st).

(** Lines 281-343: native amounts, the spend and the order. *)
Definition assembleOrder (request : Request) (p : Prepared)
    (quoteInfo : QuoteInfo number) : Plugin Order :=
  await fromNativeAmount <-
    external (denominationToNative (fromWallet request)
                (Number_toString (amount quoteInfo))
                (fromCurrencyCode request));
  await toNativeAmount <-
    external (denominationToNative (toWallet request)
                (Number_toString (amountTo quoteInfo))
                (toCurrencyCode request));
  let spendInfo := mkSpendInfo request p quoteInfo fromNativeAmount toNativeAmount in
  await now <- dateNow;
  ret {| order_request := request;
         spendInfo := spendInfo;
         order_swapInfo := swapInfo;
         fromNativeAmount := fromNativeAmount;
         expirationDate := (now + expirationMs)%Z |}.

Definition getFixedQuote (request : Request) : Plugin Order :=
  await p <- prepareQuote request;
  await rateResponse <- getRate request (quoteParams p);
  run checkRateMinimum request rateResponse;
  await quoteInfo <- makeTransaction request p;
  assembleOrder request p quoteInfo.

(** Modelled from the spec: the lookup behind [checkInvalidCodes] (of
    util/swapHelpers, not among the sources). Section 3 has the blacklist map
    a chain to its "set of disallowed asset symbols": a (chain, code) pair is
    in a list when the code is among those the list gives for the chain. *)
Definition isInvalidCode (codes : gmap string (list string))
    (chain code : string) : bool :=
  match codes !! chain with
  | Some refused => existsb (String.eqb code) refused
  | None => false
  end.

(** Modelled from the spec: the blacklist of [checkInvalidCodes]. Sections 3,
    4.1 and 8 speak of one blacklist of (chain, symbol) pairs per exchange;
    its pairs are those the table of exolix.ts lists, under either key. *)
Definition isBlacklisted (invalidCodes : InvalidCurrencyCodes)
    (chain code : string) : bool :=
  (isInvalidCode (ic_from invalidCodes) chain code
   || isInvalidCode (ic_to invalidCodes) chain code)%bool.

(** Modelled from the spec: [checkInvalidCodes] of util/swapHelpers, which
    is not among the sources. Section 4.1: the blacklist check "rejects
    specific (chain, symbol) pairs that the exchange is known not to
    support even when the chain itself is supported"; section 8: "for a
    blacklisted (chain, symbol) pair, the request is rejected with
    [CurrencyUnsupported] regardless of the opposite leg's validity". The
    pair of each leg is looked up in the blacklist. *)
Definition checkInvalidCodes (invalidCodes : InvalidCurrencyCodes)
    (request : Request) (info : EdgeSwapInfo)
  : result (JsError World) unit :=
  if (isBlacklisted invalidCodes
        (currencyInfo_pluginId (fromWallet request)) (fromCurrencyCode request)
      || isBlacklisted invalidCodes
           (currencyInfo_pluginId (toWallet request)) (toCurrencyCode request))%bool
  then Err (SwapCurrencyError info request)
  else Ok tt.

(** Modelled from the spec: [checkWhitelistedMainnetCodes] of
    util/swapHelpers, which is not among the sources. Section 4.1: the
    whitelist check "rejects the entire request (both legs) if either leg's
    chain is missing from the table". *)
Definition checkWhitelistedMainnetCodes (whitelist : gmap string string)
    (request : Request) (info : EdgeSwapInfo)
  : result (JsError World) unit :=
  match whitelist !! currencyInfo_pluginId (fromWallet request),
        whitelist !! currencyInfo_pluginId (toWallet request) with
  | Some _, Some _ => Ok tt
  | _, _ => Err (SwapCurrencyError info request)
  end.

Definition fetchSwapQuote (req : EdgeSwapRequest) : Plugin EdgeSwapQuote :=
  let request := convertRequest host req in
  run liftResult (checkInvalidCodes INVALID_CURRENCY_CODES request swapInfo);
  run liftResult
        (checkWhitelistedMainnetCodes MAINNET_CODE_TRANSCRIPTION request swapInfo);
  await newRequest <- getMaxSwappable host getFixedQuote request;
  await fixedOrder <- getFixedQuote newRequest;
  await fixedResult <- makeSwapPluginQuote host fixedOrder;
  ret fixedResult.
End Exolix.


(** ** A small concrete world on which the model runs

    JS numbers are whole numbers, the world is a clock in milliseconds that
    every outside call moves on, wallets convert by a fixed multiplier and
    the server answers the rate call and the binding call with two given
    responses. *)
Module Sim.

#[export] Instance whole_number : JsNumber Z := {|
  parseFloat := Z_ofString;
  Number_toString := Z_toString;
  Number_zero := 0%Z;
  Number_zero_toString := eq_refl
|}.

Definition wallet (name chain : string) (multiplier latency : Z)
  : EdgeCurrencyWallet Z := {|
  wallet_id := name;
  currencyInfo_pluginId := chain;
  nativeToDenomination := fun native _ clock =>
    (Ok (Z_toString (native / multiplier)), (clock + latency)%Z);
  denominationToNative := fun decimal _ clock =>
    (Ok (Z_ofString decimal * multiplier)%Z, (clock + latency)%Z)
|}.

Definition server (rate transaction : EdgeFetchResponse Z)
  : FetchCall Z -> Z -> result string (EdgeFetchResponse Z) * Z :=
  fun c clock =>
    match fc_method c with
    | GET =>
        if String.eqb (fc_url c) (uri +:+ "rate")
        then (Ok rate, (clock + 40)%Z)
        else (Err "no such route", (clock + 40)%Z)
    | POST =>
        if String.eqb (fc_url c) (uri +:+ "transactions")
        then (Ok transaction, (clock + 40)%Z)
        else (Err "no such route", (clock + 40)%Z)
    end.

Definition chainMemoType (chain : string) : MemoType :=
  if String.eqb chain "ripple" then memoNumber else memoText.

Definition host (rate transaction : EdgeFetchResponse Z)
  : Host Z Z (EdgeSwapRequestPlugin Z) (SwapOrder Z) := {|
  apiKey := "key";
  fetchCors := server rate transaction;
  Date_now := fun clock => clock;
  getAddress := fun w clock => (Ok ("address of " +:+ wallet_id w), (clock + 1)%Z);
  memoType := chainMemoType;
  getCodesWithTranscription := fun request table =>
    {| codes_fromCurrencyCode := fromCurrencyCode request;
       codes_toCurrencyCode := toCurrencyCode request;
       fromMainnetCode :=
         default EmptyString (table !! currencyInfo_pluginId (fromWallet request));
       toMainnetCode :=
         default EmptyString (table !! currencyInfo_pluginId (toWallet request)) |};
  convertRequest := fun request => request;
  getMaxSwappable := fun _ request => ret request;
  makeSwapPluginQuote := fun order => ret order;
  firstRejectedFirst := fun _ => true
|}.

Definition btcWallet := wallet "wallet-btc" "bitcoin" 100000000 5.
Definition ethWallet := wallet "wallet-eth" "ethereum" 1000000000 7.
Definition xrpWallet := wallet "wallet-xrp" "ripple" 1000000 3.
Definition zecWallet := wallet "wallet-zec" "zcash" 100000000 4.
Definition maticWallet := wallet "wallet-matic" "polygon" 1000000000 4.

Definition swap (source target : EdgeCurrencyWallet Z)
    (sourceCode targetCode : string) (direction : QuoteFor) (native : Z)
  : EdgeSwapRequestPlugin Z := {|
  fromWallet := source;
  toWallet := target;
  fromTokenId := None;
  toTokenId := None;
  nativeAmount := native;
  quoteFor := direction;
  fromCurrencyCode := sourceCode;
  toCurrencyCode := targetCode
|}.

Definition rateBody (minimum : Z) (outputMinimum : option Z)
    (quotedIn quotedOut : Z) (note : JsValue Z) : JsValue Z :=
  JObj ([("minAmount", JNum minimum)]
        ++ match outputMinimum with
           | Some m => [("withdrawMin", JNum m)]
           | None => []
           end
        ++ [("fromAmount", JNum quotedIn);
            ("toAmount", JNum quotedOut);
            ("message", note)]).

Definition transactionBody (extraId : option string) : JsValue Z :=
  JObj ([("id", JStr "ex1a2b"); ("amount", JNum 20%Z); ("amountTo", JNum 300%Z);
         ("depositAddress", JStr "deposit-here")]
        ++ match extraId with
           | Some tag => [("depositExtraId", JStr tag)]
           | None => []
           end).

Definition answer (success : bool) (code : Z) (body : JsValue Z)
  : EdgeFetchResponse Z :=
  {| ok := success; status := code; json := Some body |}.

Definition start : State Z Z := {| world := 1000%Z; fetched := [] |}.

(** The exchange: at least 10 in and 2 out; the bound order is for 20 in and
    300 out. *)
Definition usualRate : JsValue Z := rateBody 10 (Some 2%Z) 5 80 JNull.

Definition bound : EdgeFetchResponse Z := answer true 200 (transactionBody None).

Definition boundWithTag : EdgeFetchResponse Z :=
  answer true 200 (transactionBody (Some "777")).

Definition exchange : Host Z Z (EdgeSwapRequestPlugin Z) (SwapOrder Z) :=
  host (answer true 200 usualRate) bound.

Definition taggedExchange : Host Z Z (EdgeSwapRequestPlugin Z) (SwapOrder Z) :=
  host (answer true 200 usualRate) boundWithTag.

(** The same rate, told as an under-minimum message with an error status. *)
Definition underMinimum : JsValue Z :=
  rateBody 10 (Some 2%Z) 5 80 (JStr "Amount is less than the minimum").

Definition exchangeAnswering (code : Z) (body : JsValue Z)
  : Host Z Z (EdgeSwapRequestPlugin Z) (SwapOrder Z) :=
  host (answer false code body) bound.

(** A body that is no rate response. *)
Definition pairDisabled : JsValue Z := JObj [("error", JStr "pair is disabled")].

(** A rate response without [withdrawMin]. *)
Definition exchangeWithoutOutputMinimum
  : Host Z Z (EdgeSwapRequestPlugin Z) (SwapOrder Z) :=
  host (answer true 200 (rateBody 10 None 5 80 JNull)) bound.

(** 5 BTC offered against a minimum of 10 BTC; 1 ETH asked against a minimum
    of 2 ETH; and requests above the minimums. *)
Definition fiveBtcIn : EdgeSwapRequestPlugin Z :=
  swap btcWallet ethWallet "BTC" "ETH" quoteFrom 500000000.

Definition oneEthOut : EdgeSwapRequestPlugin Z :=
  swap btcWallet ethWallet "BTC" "ETH" quoteTo 1000000000.

Definition twentyBtcIn : EdgeSwapRequestPlugin Z :=
  swap btcWallet ethWallet "btc" "ETH" quoteFrom 2000000000.

Definition threeEthOut : EdgeSwapRequestPlugin Z :=
  swap btcWallet ethWallet "BTC" "ETH" quoteTo 3000000000.

Definition fiftyXrpIn : EdgeSwapRequestPlugin Z :=
  swap xrpWallet btcWallet "XRP" "BTC" quoteFrom 50000000.

Definition intoZcash : EdgeSwapRequestPlugin Z :=
  swap btcWallet zecWallet "BTC" "ZEC" quoteFrom 2000000000.

Definition fromPolygon : EdgeSwapRequestPlugin Z :=
  swap maticWallet btcWallet "MATIC" "BTC" quoteFrom 2000000000.

Definition fromZcash : EdgeSwapRequestPlugin Z :=
  swap zecWallet btcWallet "ZEC" "BTC" quoteFrom 2000000000.

(** The bound order as cleaned, with and without a deposit tag, and the
    locals of a negotiation of [fiftyXrpIn]. *)
Definition taggedOrder : QuoteInfo Z :=
  {| id := "ex1a2b"; amount := 20%Z; amountTo := 300%Z;
     depositAddress := "deposit-here"; depositExtraId := Some "777" |}.

Definition untaggedOrder : QuoteInfo Z :=
  {| id := "ex1a2b"; amount := 20%Z; amountTo := 300%Z;
     depositAddress := "deposit-here"; depositExtraId := None |}.

Definition fiftyXrpPrepared : Prepared :=
  {| fromAddress := "address of wallet-xrp";
     toAddress := "address of wallet-btc";
     quoteAmount := 50%Z;
     quoteParams := [] |}.

(** What [prepareQuote] leaves for [threeEthOut] and for [twentyBtcIn]. *)
Definition threeEthPrepared : Prepared :=
  {| fromAddress := "address of wallet-btc";
     toAddress := "address of wallet-eth";
     quoteAmount := 3%Z;
     quoteParams :=
       [("coinFrom", JStr "BTC"); ("coinFromNetwork", JStr "BTC");
        ("coinTo", JStr "ETH"); ("coinToNetwork", JStr "ETH");
        ("amount", JNum 3%Z); ("rateType", JStr "fixed");
        ("withdrawalAmount", JNum 3%Z)] |}.

Definition twentyBtcPrepared : Prepared :=
  {| fromAddress := "address of wallet-btc";
     toAddress := "address of wallet-eth";
     quoteAmount := 20%Z;
     quoteParams :=
       [("coinFrom", JStr "btc"); ("coinFromNetwork", JStr "BTC");
        ("coinTo", JStr "ETH"); ("coinToNetwork", JStr "ETH");
        ("amount", JNum 20%Z); ("rateType", JStr "fixed")] |}.

(** The usual minimums with other quoted amounts and a message. *)
Definition otherQuote : JsValue Z :=
  rateBody 10 (Some 2%Z) 7 123 (JStr "rate moved").

(** A projection of the order a negotiation assembled, if it did. *)
Definition assembled {A} (f : SwapOrder Z -> A)
    (outcome : result (JsError Z) (SwapOrder Z) * State Z Z) : option A :=
  match fst outcome with
  | Ok order => Some (f order)
  | Err _ => None
  end.

End Sim.


(** The same plugin over another network: [host] with its [fetchCors]
    replaced. *)
Definition withFetch {number World EdgeSwapRequest EdgeSwapQuote}
    (host : Host number World EdgeSwapRequest EdgeSwapQuote)
    (fetchCors' : FetchCall number -> World ->
                  result string (EdgeFetchResponse number) * World)
  : Host number World EdgeSwapRequest EdgeSwapQuote := {|
  apiKey := apiKey host;
  fetchCors := fetchCors';
  Date_now := Date_now host;
  getAddress := getAddress host;
  memoType := memoType host;
  getCodesWithTranscription := getCodesWithTranscription host;
  convertRequest := convertRequest host;
  getMaxSwappable := getMaxSwappable host;
  makeSwapPluginQuote := makeSwapPluginQuote host;
  firstRejectedFirst := firstRejectedFirst host
|}.

(** Two bodies that both validate as rate responses and give the same two
    minimums; [fromAmount], [toAmount] and [message] are free. *)
Definition sameLimits {number} `{JsNumber number} (b1 b2 : JsValue number) : Prop :=
  exists r1 r2,
    asRateResponse b1 = Ok r1 /\ asRateResponse b2 = Ok r2
    /\ minAmount r1 = minAmount r2 /\ withdrawMin r1 = withdrawMin r2.

(** Two networks that answer every call alike, except that the body of an
    answer to the rate call may differ within [sameLimits]. *)
Definition rateAnswersAgree {number World} `{JsNumber number}
    (fetch1 fetch2 : FetchCall number -> World ->
                     result string (EdgeFetchResponse number) * World) : Prop :=
  forall c w,
    fetch1 c w = fetch2 c w
    \/ (fc_method c = GET /\ fc_url c = uri +:+ "rate"
        /\ exists response1 response2 w' b1 b2,
             fetch1 c w = (Ok response1, w') /\ fetch2 c w = (Ok response2, w')
             /\ ok response1 = ok response2
             /\ status response1 = status response2
             /\ json response1 = Some b1 /\ json response2 = Some b2
             /\ sameLimits b1 b2).
(** ** Building the plugin (makeExolixPlugin, lines 137-140 and 346-373) *)

Section Construction.
Context {number : Type} `{JsNumber number}.
Context {World EdgeSwapRequest EdgeSwapQuote : Type}.

Definition EdgeFetchFunction : Type :=
  FetchCall number -> World -> result string (EdgeFetchResponse number) * World.

(** What the plugin and its test scaffold use of [EdgeIo]; [fetchCors] is
    optional. [random] gives bytes, [scrypt] takes data, salt and four
    numbers. *)
Record EdgeIo := {
  io_fetch : EdgeFetchFunction;
  io_fetchCors : option EdgeFetchFunction;
  io_random : nat -> list Z;
  io_scrypt : list Z -> list Z -> Z -> Z -> Z -> Z -> list Z
}.

Record EdgeCorePluginOptions := {
  opts_io : EdgeIo;
  initOptions : JsValue number
}.

Record InitOptions := {
  init_apiKey : string
}.

Definition asInitOptions : Cleaner number InitOptions := fun raw =>
  if isObject raw then
    (try apiKey <- asString (getProp "apiKey" raw);
     Ok {| init_apiKey := apiKey |})%result
  else Err "Expected an object".

Record EdgeSwapPlugin := {
  plugin_swapInfo : EdgeSwapInfo;
  plugin_fetchSwapQuote : EdgeSwapRequest -> M number World EdgeSwapQuote
}.

(** The environment the closures of the plugin run in: the imports of the
    module with [apiKey] and [fetchCors] taken from the options
    ([const { fetchCors = io.fetch } = io]). *)
Definition pluginHost (imports : Host number World EdgeSwapRequest EdgeSwapQuote)
    (io : EdgeIo) (key : string)
  : Host number World EdgeSwapRequest EdgeSwapQuote := {|
  apiKey := key;
  fetchCors :=
    match io_fetchCors io with
    | Some fetchCors => fetchCors
    | None => io_fetch io
    end;
  Date_now := Date_now imports;
  getAddress := getAddress imports;
  memoType := memoType imports;
  getCodesWithTranscription := getCodesWithTranscription imports;
  convertRequest := convertRequest imports;
  getMaxSwappable := getMaxSwappable imports;
  makeSwapPluginQuote := makeSwapPluginQuote imports;
  firstRejectedFirst := firstRejectedFirst imports
|}.

(** [makeExolixPlugin(opts)]: [asInitOptions] throws while the plugin is
    built. *)
Definition makeExolixPlugin
    (imports : Host number World EdgeSwapRequest EdgeSwapQuote)
    (opts : EdgeCorePluginOptions) : result (JsError World) EdgeSwapPlugin :=
  match asInitOptions (initOptions opts) with
  | Ok init =>
      let host := pluginHost imports (opts_io opts) (init_apiKey init) in
      Ok {| plugin_swapInfo := swapInfo;
            plugin_fetchSwapQuote := fetchSwapQuote host |}
  | Err msg => Err (TypeError msg)
  end.
End Construction.
Arguments EdgeFetchFunction : clear implicits.
Arguments EdgeIo : clear implicits.
Arguments EdgeCorePluginOptions : clear implicits.
Arguments EdgeSwapPlugin : clear implicits.

(** ** The fake IO of the tests (makeFakeLog, makeFakeIo, makeFakeFetch) *)

Module FakeIo.
Section Fake.
Context {number World : Type}.

(** The headers of a fake response: [forEach] does nothing, [get] finds
    nothing and [has] is false. *)
Record FakeHeaders := {
  headers_get : string -> option string;
  headers_has : string -> bool
}.

(** The whole object [makeFakeFetch] resolves to; the plugin reads [ok],
    [status] and [json()] of it. *)
Record FakeResponse := {
  fake_arrayBuffer : list Z;
  fake_headers : FakeHeaders;
  fake_json : JsValue number;
  fake_ok : bool;
  fake_status : Z;
  fake_text : string
}.

Definition fakeResponse : FakeResponse := {|
  fake_arrayBuffer := [];
  fake_headers := {| headers_get := fun _ => None; headers_has := fun _ => false |};
  fake_json := JObj [];
  fake_ok := true;
  fake_status := 200%Z;
  fake_text := EmptyString
|}.

Definition asEdgeFetchResponse (r : FakeResponse) : EdgeFetchResponse number :=
  {| ok := fake_ok r; status := fake_status r; json := Some (fake_json r) |}.

(** [makeFakeFetch()]: whatever is asked, the same response, at once. *)
Definition makeFakeFetch : EdgeFetchFunction number World :=
  fun _ w => (Ok (asEdgeFetchResponse fakeResponse), w).

(** [random(bytes)]: [new Uint8Array([...Array(bytes).keys()])], the indices
    stored as bytes. *)
Definition random (bytes : nat) : list Z :=
  map (fun i => (Z.of_nat i mod 256)%Z) (seq 0 bytes).

(** [scrypt]: an empty array. *)
Definition scrypt (_data _salt : list Z) (_n _r _p _dklen : Z) : list Z := [].

(** [makeFakeIo(config)], without the console and the disklet. *)
Definition makeFakeIo : EdgeIo number World := {|
  io_fetch := makeFakeFetch;
  io_fetchCors := None;
  io_random := random;
  io_scrypt := scrypt
|}.
End Fake.
End FakeIo.

(** ** More concrete cases *)

Module Cases.
Import Sim.

(** A request for the most that can be swapped, if it reached the
    negotiation as it is. *)
Definition allBtc : EdgeSwapRequestPlugin Z :=
  swap btcWallet ethWallet "BTC" "ETH" quoteMax 3000000000.

(** Exactly the minimum of 10 BTC. *)
Definition tenBtcIn : EdgeSwapRequestPlugin Z :=
  swap btcWallet ethWallet "BTC" "ETH" quoteFrom 1000000000.




(** An exchange whose binding call answers without a deposit address. *)
Definition exchangeBindingBadly : Host Z Z (EdgeSwapRequestPlugin Z) (SwapOrder Z) :=
  host (answer true 200 usualRate)
       (answer true 200 (JObj [("id", JStr "ex1a2b")])).

(** An exchange whose rate call answers 200 with something else. *)
Definition exchangeQuotingBadly : Host Z Z (EdgeSwapRequestPlugin Z) (SwapOrder Z) :=
  host (answer true 200 pairDisabled) bound.

(** A network that is down. *)
Definition offline : FetchCall Z -> Z -> result string (EdgeFetchResponse Z) * Z :=
  fun _ clock => (Err "network down", (clock + 9)%Z).

Definition goodOptions : EdgeCorePluginOptions Z Z := {|
  opts_io := FakeIo.makeFakeIo;
  initOptions := JObj [("apiKey", JStr "secret")]
|}.

Definition optionsWithoutKey : EdgeCorePluginOptions Z Z := {|
  opts_io := FakeIo.makeFakeIo;
  initOptions := JObj [("apikey", JStr "secret")]
|}.

Definition twentyBtcRateCall : FetchCall Z :=
  {| fc_url := "https://exolix.com/api/v2/rate";
     fc_query :=
       Some [("coinFrom", JStr "btc"); ("coinFromNetwork", JStr "BTC");
             ("coinTo", JStr "ETH"); ("coinToNetwork", JStr "ETH");
             ("amount", JNum 20%Z); ("rateType", JStr "fixed")];
     fc_method := GET;
     fc_headers :=
       [("Accept", "application/json"); ("Content-Type", "application/json");
        ("Authorization", "secret")];
     fc_body := None |}.

(** What [prepareQuote] leaves for [allBtc]. *)
Definition allBtcPrepared : Prepared :=
  {| fromAddress := "address of wallet-btc";
     toAddress := "address of wallet-eth";
     quoteAmount := 3%Z;
     quoteParams :=
       [("coinFrom", JStr "BTC"); ("coinFromNetwork", JStr "BTC");
        ("coinTo", JStr "ETH"); ("coinToNetwork", JStr "ETH");
        ("amount", JNum 3%Z); ("rateType", JStr "fixed")] |}.

(** A rate response asking for at least 5 out. *)
Definition fiveOut : RateResponse Z :=
  {| minAmount := 10%Z; withdrawMin := 5%Z; fromAmount := 5%Z; toAmount := 80%Z;
     message := inr tt |}.


End Cases.

(** ** Properties *)

(** The parameters a fetch carries, in its body or in its query. *)
Definition sentParams {number} (c : FetchCall number) : JsObject number :=
  match fc_body c, fc_query c with
  | Some body, _ => body
  | None, Some query => query
  | None, None => []
  end.

(** The binding call: a POST to the [transactions] route. *)
Definition isCreateTransaction {number} (c : FetchCall number) : bool :=
  match fc_method c with
  | POST => String.eqb (fc_url c) (uri +:+ "transactions")
  | GET => false
  end.

Section Properties.
Context {number : Type} `{JsNumber number}.
Context {World EdgeSwapRequest EdgeSwapQuote : Type}.

Local Abbreviation Request := (EdgeSwapRequestPlugin World).
Local Abbreviation Order := (SwapOrder World).
Local Abbreviation Plugin := (M number World).
Local Abbreviation PluginState := (State number World).

Variable host : Host number World EdgeSwapRequest EdgeSwapQuote.

Local Open Scope plugin_scope.
Local Open Scope list_scope.

(** *** Stepping through the monad *)

Lemma bind_Ok {A B} (m : Plugin A) (k : A -> Plugin B) st a st1 :
  m st = (Ok a, st1) -> bind m k st = k a st1.
Proof. intros Hm. unfold bind. now rewrite Hm. Qed.

Lemma bind_Err {A B} (m : Plugin A) (k : A -> Plugin B) st e st1 :
  m st = (Err e, st1) -> bind m k st = (Err e, st1).
Proof. intros Hm. unfold bind. now rewrite Hm. Qed.

Lemma bind_inv {A B} (m : Plugin A) (k : A -> Plugin B) st b st' :
  bind m k st = (Ok b, st') ->
  exists a st1, m st = (Ok a, st1) /\ k a st1 = (Ok b, st').
Proof.
  unfold bind. destruct (m st) as [[a | e] st1]; intros Hk.
  - now exists a, st1.
  - discriminate.
Qed.

Lemma external_Ok {A} (op : External World A) (st : PluginState) a w :
  op (world st) = (Ok a, w) ->
  external op st = (Ok a, {| world := w; fetched := fetched st |}).
Proof. intros Hop. unfold external. now rewrite Hop. Qed.

Lemma external_inv {A} (op : External World A) (st st' : PluginState) a :
  external op st = (Ok a, st') ->
  op (world st) = (Ok a, world st') /\ fetched st' = fetched st.
Proof.
  unfold external. destruct (op (world st)) as [[x | e] w]; intros [= <- <-];
    now split.
Qed.

Lemma external_fetched {A} (op : External World A) (st : PluginState) :
  fetched (snd (external op st)) = fetched st.
Proof. unfold external. now destruct (op (world st)) as [[x | e] w]. Qed.

Lemma promiseAll_fetched {A B} (a : External World A) (b : External World B)
    (st : PluginState) :
  fetched (snd (promiseAll host a b st)) = fetched st.
Proof.
  unfold promiseAll. destruct (a (world st)) as [ra w1].
  destruct (b w1) as [rb w2]. now destruct ra, rb.
Qed.

Lemma promiseAll_inv {A B} (a : External World A) (b : External World B)
    (st st' : PluginState) x :
  promiseAll host a b st = (Ok x, st') ->
  exists w1,
    a (world st) = (Ok (fst x), w1)
    /\ b w1 = (Ok (snd x), world st')
    /\ fetched st' = fetched st.
Proof.
  unfold promiseAll. destruct (a (world st)) as [ra w1].
  destruct (b w1) as [rb w2] eqn:Hb.
  destruct ra, rb; intros [= <- <-]. exists w1. now rewrite Hb.
Qed.

(** A rejected [Promise.all]: the rejection is one of the two calls', and
    both calls were made. *)
Lemma promiseAll_Err_inv {A B} (a : External World A) (b : External World B)
    (st st' : PluginState) e :
  promiseAll host a b st = (Err e, st') ->
  exists ra w1 rb rejection,
    a (world st) = (ra, w1)
    /\ b w1 = (rb, world st')
    /\ e = WalletRejection rejection
    /\ (ra = Err rejection \/ rb = Err rejection)
    /\ fetched st' = fetched st.
Proof.
  unfold promiseAll. destruct (a (world st)) as [ra w1].
  destruct (b w1) as [rb w2] eqn:Hb.
  destruct ra as [x | e1], rb as [y | e2]; intros [= <- <-].
  - exists (Ok x), w1, (Err e2), e2. rewrite Hb. auto 6.
  - exists (Err e1), w1, (Ok y), e1. rewrite Hb. auto 6.
  - destruct (firstRejectedFirst host w2).
    + exists (Err e1), w1, (Err e2), e1. rewrite Hb. auto 6.
    + exists (Err e1), w1, (Err e2), e2. rewrite Hb. auto 6.
Qed.

Lemma clean_fetched {T} (cleaner : Cleaner number T) raw (st : PluginState) :
  snd (clean (World := World) cleaner raw st) = st.
Proof. unfold clean. now destruct (cleaner raw). Qed.

(** *** What each stage does to the fetch log *)

Lemma fetch_fetched c (st : PluginState) :
  fetched (snd (fetch host c st)) = fetched st ++ [c].
Proof.
  unfold fetch. destruct (fetchCors host c (world st)) as [[r | e] w]; reflexivity.
Qed.

Lemma response_json_state response (st : PluginState) :
  snd (response_json (World := World) response st) = st.
Proof. unfold response_json. now destruct (json response). Qed.

Lemma call_fetched request method route params (st : PluginState) :
  fetched (snd (call host request method route params st))
  = fetched st ++ [fetchArgs host method route params].
Proof.
  unfold call, bind.
  pose proof (fetch_fetched (fetchArgs host method route params) st) as Hf.
  destruct (fetch host (fetchArgs host method route params) st)
    as [[response | e] st1]; simpl in *; [| exact Hf].
  rewrite <- Hf.
  destruct (negb (ok response)).
  - destruct (status response =? 422)%Z; [| reflexivity].
    pose proof (response_json_state response st1) as Hj.
    destruct (response_json response st1) as [[resJson | e] st2];
      simpl in *; subst st2; [| reflexivity].
    now destruct (asMaybe asRateResponse resJson).
  - now rewrite response_json_state.
Qed.

Lemma getRate_fetched request params (st : PluginState) :
  fetched (snd (getRate host request params st))
  = fetched st ++ [fetchArgs host GET "rate" params].
Proof.
  unfold getRate, bind.
  pose proof (call_fetched request GET "rate" params st) as Hc.
  destruct (call host request GET "rate" params st) as [[rateJson | e] st1];
    simpl in *; [| exact Hc].
  now rewrite clean_fetched.
Qed.

Lemma makeTransaction_fetched request p (st : PluginState) :
  fetched (snd (makeTransaction host request p st))
  = fetched st ++ [fetchArgs host POST "transactions" (mkExchangeParams request p)].
Proof.
  unfold makeTransaction, bind.
  pose proof (call_fetched request POST "transactions"
                (mkExchangeParams request p) st) as Hc.
  destruct (call host request POST "transactions" (mkExchangeParams request p) st)
    as [[callJson | e] st1]; simpl in *; [| exact Hc].
  now rewrite clean_fetched.
Qed.

Lemma prepareQuote_fetched request (st : PluginState) :
  fetched (snd (prepareQuote host request st)) = fetched st.
Proof.
  unfold prepareQuote, bind.
  pose proof (promiseAll_fetched (getAddress host (fromWallet request))
                (getAddress host (toWallet request)) st) as H1.
  destruct (promiseAll host (getAddress host (fromWallet request))
              (getAddress host (toWallet request)) st)
    as [[addresses | e] st2]; simpl in *; [| exact H1].
  destruct (quoteFor request);
    match goal with
    | |- context [external ?op st2] =>
        pose proof (external_fetched op st2) as H3;
        destruct (external op st2) as [[a3 | e] st3]; simpl in *; congruence
    end.
Qed.

Lemma checkRateMinimum_fetched request r (st : PluginState) :
  fetched (snd (checkRateMinimum request r st)) = fetched st.
Proof.
  unfold checkRateMinimum, bind.
  destruct (quoteFor request);
    match goal with
    | |- context [external ?op st] =>
        pose proof (external_fetched op st) as H1;
        destruct (external op st) as [[nativeMin | e] st1]; simpl in *;
        [ destruct (nativeAmount request <? nativeMin)%Z; exact H1 | exact H1 ]
    end.
Qed.

Lemma assembleOrder_fetched request p quoteInfo (st : PluginState) :
  fetched (snd (assembleOrder host request p quoteInfo st)) = fetched st.
Proof.
  unfold assembleOrder, bind.
  match goal with
  | |- context [external ?op st] =>
      pose proof (external_fetched op st) as H1;
      destruct (external op st) as [[n1 | e] st1]; simpl in *; [| exact H1]
  end.
  match goal with
  | |- context [external ?op st1] =>
      pose proof (external_fetched op st1) as H2;
      destruct (external op st1) as [[n2 | e] st2]; simpl in *; congruence
  end.
Qed.

(** The state a successful stage leaves: its log in terms of the log it
    started from. *)
Lemma prepareQuote_Ok_fetched request (st st0 : PluginState) p :
  prepareQuote host request st = (Ok p, st0) -> fetched st0 = fetched st.
Proof.
  intros Hp. pose proof (prepareQuote_fetched request st) as Hf.
  now rewrite Hp in Hf.
Qed.

Lemma getRate_Ok_fetched request params (st st1 : PluginState) r :
  getRate host request params st = (Ok r, st1) ->
  fetched st1 = fetched st ++ [fetchArgs host GET "rate" params].
Proof.
  intros Hr. pose proof (getRate_fetched request params st) as Hf.
  now rewrite Hr in Hf.
Qed.

Lemma isCreateTransaction_rate params :
  isCreateTransaction (fetchArgs host GET "rate" params) = false.
Proof. reflexivity. Qed.

Lemma isCreateTransaction_transactions params :
  isCreateTransaction (fetchArgs host POST "transactions" params) = true.
Proof. reflexivity. Qed.

(** *** The minimum-limit check *)

(** The check on the side [direction], once the wallet has converted the
    minimum: a request under the minimum is thrown out. *)
Lemma checkRateMinimum_below request r (st : PluginState) :
  forall (wallet_ := match quoteFor request with
                     | quoteFrom => fromWallet request
                     | _ => toWallet request
                     end)
         (minimum := match quoteFor request with
                     | quoteFrom => minAmount r
                     | _ => withdrawMin r
                     end)
         (code := match quoteFor request with
                  | quoteFrom => fromCurrencyCode request
                  | _ => toCurrencyCode request
                  end)
         (side := match quoteFor request with
                  | quoteFrom => dirFrom
                  | _ => dirTo
                  end)
         nativeMin w,
  denominationToNative wallet_ (Number_toString minimum) code (world st)
  = (Ok nativeMin, w) ->
  checkRateMinimum request r st
  = (if (nativeAmount request <? nativeMin)%Z
     then Err (SwapBelowLimitError swapInfo nativeMin side)
     else Ok tt,
     {| world := w; fetched := fetched st |}).
Proof.
  intros wallet_ minimum code side nativeMin w Hconv.
  unfold checkRateMinimum.
  subst wallet_ minimum code side.
  destruct (quoteFor request);
    rewrite (bind_Ok _ _ _ _ _ (external_Ok _ _ _ _ Hconv));
    now destruct (nativeAmount request <? nativeMin)%Z.
Qed.

(** C1. The minimum-limit check uses the side of the quote direction: for a
    'from' request the rate response's [minAmount] is converted by the
    from-wallet with the from-side currency code, for a 'to' request its
    [withdrawMin] by the to-wallet with the to-side code. When the request's
    native amount is strictly below the converted minimum, the negotiation
    fails with a below-limit error that names that side and carries the
    converted minimum, and the only fetch it has issued is the rate call: no
    binding call is made. *)
Theorem minimum_check_follows_quote_direction
    request (st st0 st1 : PluginState) p r :
  prepareQuote host request st = (Ok p, st0) ->
  getRate host request (quoteParams p) st0 = (Ok r, st1) ->
  (quoteFor request = quoteFrom ->
   forall nativeMin w,
     denominationToNative (fromWallet request)
       (Number_toString (minAmount r)) (fromCurrencyCode request) (world st1)
     = (Ok nativeMin, w) ->
     (nativeAmount request < nativeMin)%Z ->
     let final :=
       {| world := w;
          fetched := fetched st ++ [fetchArgs host GET "rate" (quoteParams p)] |} in
     getFixedQuote host request st
     = (Err (SwapBelowLimitError swapInfo nativeMin dirFrom), final)
     /\ filter isCreateTransaction (fetched final)
        = filter isCreateTransaction (fetched st))
  /\
  (quoteFor request = quoteTo ->
   forall nativeMin w,
     denominationToNative (toWallet request)
       (Number_toString (withdrawMin r)) (toCurrencyCode request) (world st1)
     = (Ok nativeMin, w) ->
     (nativeAmount request < nativeMin)%Z ->
     let final :=
       {| world := w;
          fetched := fetched st ++ [fetchArgs host GET "rate" (quoteParams p)] |} in
     getFixedQuote host request st
     = (Err (SwapBelowLimitError swapInfo nativeMin dirTo), final)
     /\ filter isCreateTransaction (fetched final)
        = filter isCreateTransaction (fetched st)).
Proof.
  intros Hprep Hrate.
  assert (Hlog : fetched st1
                 = fetched st ++ [fetchArgs host GET "rate" (quoteParams p)]).
  { rewrite (getRate_Ok_fetched _ _ _ _ _ Hrate).
    now rewrite (prepareQuote_Ok_fetched _ _ _ _ Hprep). }
  split; intros Hdir nativeMin w Hconv Hlt final; subst final;
    (split;
     [ unfold getFixedQuote;
       rewrite (bind_Ok _ _ _ _ _ Hprep), (bind_Ok _ _ _ _ _ Hrate);
       pose proof (checkRateMinimum_below request r st1) as Hcheck;
       rewrite Hdir in Hcheck; cbv zeta in Hcheck;
       specialize (Hcheck _ _ Hconv);
       apply Z.ltb_lt in Hlt; rewrite Hlt in Hcheck;
       rewrite (bind_Err _ _ _ _ _ Hcheck); now rewrite Hlog
     | simpl; rewrite filter_app; simpl; now rewrite app_nil_r ]).
Qed.


(** *** The remote call *)



(** What [call] returns, by cases on the response that came back. *)
Lemma call_response request method route params (st : PluginState) response w :
  fetchCors host (fetchArgs host method route params) (world st) = (Ok response, w) ->
  call host request method route params st
  = (if negb (ok response) then
       if (status response =? 422)%Z then
         match json response with
         | Some resJson =>
             match asMaybe asRateResponse resJson with
             | Some _ => Ok resJson
             | None => Err (SwapCurrencyError swapInfo request)
             end
         | None => Err SyntaxError
         end
       else Err (ProviderError (status response))
     else
       match json response with
       | Some v => Ok v
       | None => Err SyntaxError
       end,
     {| world := w;
        fetched := fetched st ++ [fetchArgs host method route params] |}).
Proof.
  intros Hfetch. unfold call, bind, fetch. rewrite Hfetch.
  unfold response_json.
  destruct (negb (ok response)).
  - destruct (status response =? 422)%Z; [| reflexivity].
    destruct (json response) as [resJson |]; [| reflexivity].
    cbv [ret]. now destruct (asMaybe asRateResponse resJson).
  - now destruct (json response).
Qed.

(** C2, as the code has it. When a remote call comes back with a non-success
    response of status 422 whose body validates as a rate response, [call]
    returns that body and raises nothing. For the rate call the negotiation
    then goes on with the minimum-limit check on the cleaned body. For any
    other non-success status the body is not looked at: whatever it is, and
    be it a valid rate response, [call] raises the generic error carrying the
    status. *)
Theorem unprocessable_rate_body_is_a_quote :
  (forall request method route params (st : PluginState) response w body r,
     fetchCors host (fetchArgs host method route params) (world st)
     = (Ok response, w) ->
     ok response = false ->
     status response = 422%Z ->
     json response = Some body ->
     asRateResponse body = Ok r ->
     call host request method route params st
     = (Ok body,
        {| world := w;
           fetched := fetched st ++ [fetchArgs host method route params] |}))
  /\
  (forall request (st st0 : PluginState) p response w body r,
     prepareQuote host request st = (Ok p, st0) ->
     fetchCors host (fetchArgs host GET "rate" (quoteParams p)) (world st0)
     = (Ok response, w) ->
     ok response = false ->
     status response = 422%Z ->
     json response = Some body ->
     asRateResponse body = Ok r ->
     getFixedQuote host request st
     = (run checkRateMinimum request r;
        await quoteInfo <- makeTransaction host request p;
        assembleOrder host request p quoteInfo)
         {| world := w;
            fetched := fetched st0 ++ [fetchArgs host GET "rate" (quoteParams p)] |})
  /\
  (forall request method route params (st : PluginState) response w,
     fetchCors host (fetchArgs host method route params) (world st)
     = (Ok response, w) ->
     ok response = false ->
     status response <> 422%Z ->
     call host request method route params st
     = (Err (ProviderError (status response)),
        {| world := w;
           fetched := fetched st ++ [fetchArgs host method route params] |})).
Proof.
  assert (Hcall : forall request method route params (st : PluginState)
                         response w body r,
             fetchCors host (fetchArgs host method route params) (world st)
             = (Ok response, w) ->
             ok response = false ->
             status response = 422%Z ->
             json response = Some body ->
             asRateResponse body = Ok r ->
             call host request method route params st
             = (Ok body,
                {| world := w;
                   fetched := fetched st ++ [fetchArgs host method route params] |})).
  { intros request method route params st response w body r
           Hfetch Hok Hstatus Hjson Hshape.
    rewrite (call_response _ _ _ _ _ _ _ Hfetch).
    rewrite Hok, Hstatus, Hjson. simpl.
    unfold asMaybe. now rewrite Hshape. }
  split; [exact Hcall |].
  split.
  2: { intros request method route params st response w Hfetch Hok Hstatus.
       rewrite (call_response _ _ _ _ _ _ _ Hfetch), Hok. simpl.
       apply Z.eqb_neq in Hstatus. now rewrite Hstatus. }
  intros request st st0 p response w body r Hprep Hfetch Hok Hstatus Hjson Hshape.
  assert (Hrate : getRate host request (quoteParams p) st0
                  = (Ok r,
                     {| world := w;
                        fetched := fetched st0
                                   ++ [fetchArgs host GET "rate" (quoteParams p)] |})).
  { unfold getRate.
    rewrite (bind_Ok _ _ _ _ _
               (Hcall request GET "rate" _ st0 _ _ _ _
                      Hfetch Hok Hstatus Hjson Hshape)).
    unfold clean. now rewrite Hshape. }
  unfold getFixedQuote.
  now rewrite (bind_Ok _ _ _ _ _ Hprep), (bind_Ok _ _ _ _ _ Hrate).
Qed.



(** *** A negotiation that succeeds *)

(** Every stage of a successful negotiation succeeded, in the order of the
    source. *)
Lemma getFixedQuote_inv request (st st' : PluginState) order :
  getFixedQuote host request st = (Ok order, st') ->
  exists p st0 r st1 st2 quoteInfo st3,
    prepareQuote host request st = (Ok p, st0)
    /\ getRate host request (quoteParams p) st0 = (Ok r, st1)
    /\ checkRateMinimum request r st1 = (Ok tt, st2)
    /\ makeTransaction host request p st2 = (Ok quoteInfo, st3)
    /\ assembleOrder host request p quoteInfo st3 = (Ok order, st').
Proof.
  unfold getFixedQuote. intros Hq.
  apply bind_inv in Hq as (p & st0 & Hprep & Hq).
  apply bind_inv in Hq as (r & st1 & Hrate & Hq).
  apply bind_inv in Hq as ([] & st2 & Hcheck & Hq).
  apply bind_inv in Hq as (quoteInfo & st3 & Htx & Hq).
  now exists p, st0, r, st1, st2, quoteInfo, st3.
Qed.

(** The order [assembleOrder] returns: both native amounts come from the
    wallets' conversion of the bound order's [amount] and [amountTo], and the
    clock is read after them. *)
Lemma assembleOrder_inv request p quoteInfo (st st' : PluginState) order :
  assembleOrder host request p quoteInfo st = (Ok order, st') ->
  exists fromNative toNative w,
    denominationToNative (fromWallet request)
      (Number_toString (amount quoteInfo)) (fromCurrencyCode request) (world st)
    = (Ok fromNative, w)
    /\ denominationToNative (toWallet request)
         (Number_toString (amountTo quoteInfo)) (toCurrencyCode request) w
       = (Ok toNative, world st')
    /\ fetched st' = fetched st
    /\ order
       = {| order_request := request;
            spendInfo := mkSpendInfo host request p quoteInfo fromNative toNative;
            order_swapInfo := swapInfo;
            fromNativeAmount := fromNative;
            expirationDate := (Date_now host (world st') + expirationMs)%Z |}.
Proof.
  unfold assembleOrder. intros Ha.
  apply bind_inv in Ha as (fromNative & st1 & Hfrom & Ha).
  apply bind_inv in Ha as (toNative & st2 & Hto & Ha).
  apply external_inv in Hfrom as [Hfrom Hlog1].
  apply external_inv in Hto as [Hto Hlog2].
  unfold bind, dateNow, ret in Ha. injection Ha as <- <-.
  exists fromNative, toNative, (world st1).
  repeat split; congruence.
Qed.

(** How [asQuoteInfo] reads [depositExtraId]: a missing or [null] field is
    absent, a string is present. *)
Lemma asQuoteInfo_depositExtraId (body : JsValue number) quoteInfo :
  asQuoteInfo body = Ok quoteInfo ->
  (isNullish (getProp "depositExtraId" body) = true ->
   depositExtraId quoteInfo = None)
  /\ (forall extraId,
        getProp "depositExtraId" body = JStr extraId ->
        depositExtraId quoteInfo = Some extraId).
Proof.
  unfold asQuoteInfo. intros Hshape.
  destruct (isObject body); [| discriminate].
  destruct (asString (getProp "id" body)); [| discriminate].
  destruct (asNumber (getProp "amount" body)); [| discriminate].
  destruct (asNumber (getProp "amountTo" body)); [| discriminate].
  destruct (asString (getProp "depositAddress" body)); [| discriminate].
  simpl in Hshape. unfold asOptional_ in Hshape.
  split.
  - intros Hnull. rewrite Hnull in Hshape. simpl in Hshape.
    now injection Hshape as <-.
  - intros extraId Hstr. rewrite Hstr in Hshape. simpl in Hshape.
    now injection Hshape as <-.
Qed.

(** C4, as the code has it. For every bound order, the assembled spend has
    no memo when the order has no [depositExtraId]; when it has one, the
    spend has exactly one memo, whose value is that identifier and whose type
    is the memo type of the from-wallet's chain, the chain the deposit is
    made on (not that of the to-wallet's chain). *)
Theorem memo_follows_deposit_extra_id
    request p quoteInfo (st st' : PluginState) order :
  assembleOrder host request p quoteInfo st = (Ok order, st') ->
  (depositExtraId quoteInfo = None -> memos (spendInfo order) = [])
  /\ (forall extraId,
        depositExtraId quoteInfo = Some extraId ->
        memos (spendInfo order)
        = [{| memo_type :=
                memoType host (currencyInfo_pluginId (fromWallet request));
              memo_value := extraId |}]).
Proof.
  intros Ha.
  apply assembleOrder_inv in Ha as (fromNative & toNative & w & _ & _ & _ & ->).
  simpl. unfold mkMemos.
  split.
  - now intros ->.
  - now intros extraId ->.
Qed.

(** C8. The expiration of every assembled order is the clock read when the
    order is built plus 60 seconds: the world a successful negotiation ends in
    is the one [Date.now()] was read in, after every wallet and network call,
    and nothing of the two responses enters the date. *)
Theorem expiration_is_construction_plus_60s request (st st' : PluginState) order :
  getFixedQuote host request st = (Ok order, st') ->
  expirationDate order = (Date_now host (world st') + 60 * 1000)%Z.
Proof.
  intros Hq.
  apply getFixedQuote_inv in Hq
    as (p & st0 & r & st1 & st2 & quoteInfo & st3 & _ & _ & _ & _ & Ha).
  apply assembleOrder_inv in Ha as (fromNative & toNative & w & _ & _ & _ & ->).
  reflexivity.
Qed.

(** C9. In every assembled order the network fee option is 'high' exactly
    when the upper-cased source currency code is "BTC", and 'standard'
    otherwise. *)
Theorem fee_is_high_exactly_for_BTC request (st st' : PluginState) order :
  getFixedQuote host request st = (Ok order, st') ->
  (networkFeeOption (spendInfo order) = feeHigh
   <-> toUpperCase (fromCurrencyCode request) = "BTC")
  /\ (toUpperCase (fromCurrencyCode request) <> "BTC"
      -> networkFeeOption (spendInfo order) = feeStandard).
Proof.
  intros Hq.
  apply getFixedQuote_inv in Hq
    as (p & st0 & r & st1 & st2 & quoteInfo & st3 & _ & _ & _ & _ & Ha).
  apply assembleOrder_inv in Ha as (fromNative & toNative & w & _ & _ & _ & ->).
  simpl.
  destruct (String.eqb_spec (toUpperCase (fromCurrencyCode request)) "BTC")
    as [Heq | Hne].
  - split; [now split | now intros Hne].
  - split; [split; [discriminate | now intros Heq] | reflexivity].
Qed.


(** *** The parameters of the two calls *)

(** What [prepareQuote] hands on: the decimal amount is the quoted side's
    wallet conversion of the request's native amount, parsed, and the rate
    parameters are built from it. *)
Lemma prepareQuote_inv request (st st0 : PluginState) p :
  prepareQuote host request st = (Ok p, st0) ->
  exists w1 w2 decimal,
    getAddress host (fromWallet request) (world st) = (Ok (fromAddress p), w1)
    /\ getAddress host (toWallet request) w1 = (Ok (toAddress p), w2)
    /\ match quoteFor request with
       | quoteFrom =>
           nativeToDenomination (fromWallet request)
             (nativeAmount request) (fromCurrencyCode request) w2
       | _ =>
           nativeToDenomination (toWallet request)
             (nativeAmount request) (toCurrencyCode request) w2
       end = (Ok decimal, world st0)
    /\ quoteAmount p = parseFloat decimal
    /\ quoteParams p
       = mkQuoteParams request
           (getCodesWithTranscription host request MAINNET_CODE_TRANSCRIPTION)
           (quoteAmount p).
Proof.
  unfold prepareQuote. intros Hp.
  apply bind_inv in Hp as (addresses & st2 & H12 & Hp).
  apply bind_inv in Hp as (decimal & st3 & H3 & Hp).
  apply promiseAll_inv in H12 as (w1 & H1 & H2 & _).
  unfold ret in Hp. injection Hp as <- <-.
  exists w1, (world st2), decimal. simpl.
  repeat split; try assumption.
  destruct (quoteFor request); now apply external_inv in H3 as [H3 _].
Qed.

(** The fetches of one negotiation: the rate call, and after it at most the
    binding call. *)
Lemma getFixedQuote_fetched request (st st0 : PluginState) p :
  prepareQuote host request st = (Ok p, st0) ->
  let rateCall := fetchArgs host GET "rate" (quoteParams p) in
  let createCall :=
    fetchArgs host POST "transactions" (mkExchangeParams request p) in
  fetched (snd (getFixedQuote host request st)) = fetched st ++ [rateCall]
  \/ fetched (snd (getFixedQuote host request st))
     = fetched st ++ [rateCall; createCall].
Proof.
  intros Hprep rateCall createCall. subst rateCall createCall.
  unfold getFixedQuote. rewrite (bind_Ok _ _ _ _ _ Hprep). cbv beta.
  rewrite <- (prepareQuote_Ok_fetched _ _ _ _ Hprep).
  pose proof (getRate_fetched request (quoteParams p) st0) as Hrate.
  unfold bind.
  destruct (getRate host request (quoteParams p) st0) as [[r | e] st1];
    simpl in Hrate; [| now left].
  pose proof (checkRateMinimum_fetched request r st1) as Hcheck.
  destruct (checkRateMinimum request r st1) as [[[] | e] st2];
    simpl in Hcheck; [| left; simpl; congruence].
  pose proof (makeTransaction_fetched request p st2) as Htx.
  destruct (makeTransaction host request p st2) as [[quoteInfo | e] st3];
    simpl in Htx; right.
  - rewrite assembleOrder_fetched, Htx, Hcheck, Hrate.
    now rewrite <- app_assoc.
  - simpl. rewrite Htx, Hcheck, Hrate. now rewrite <- app_assoc.
Qed.

(** The fetches of a negotiation, by how far it gets: the rate call alone
    when the rate call or the minimum check fails, and the binding call after
    it as soon as the check has passed. *)
Lemma getFixedQuote_fetched_by_stage request (st st0 : PluginState) p :
  prepareQuote host request st = (Ok p, st0) ->
  let rateCall := fetchArgs host GET "rate" (quoteParams p) in
  let createCall :=
    fetchArgs host POST "transactions" (mkExchangeParams request p) in
  (forall e st1,
     getRate host request (quoteParams p) st0 = (Err e, st1) ->
     fetched (snd (getFixedQuote host request st)) = fetched st ++ [rateCall])
  /\ (forall r st1 e st2,
        getRate host request (quoteParams p) st0 = (Ok r, st1) ->
        checkRateMinimum request r st1 = (Err e, st2) ->
        fetched (snd (getFixedQuote host request st)) = fetched st ++ [rateCall])
  /\ (forall r st1 st2,
        getRate host request (quoteParams p) st0 = (Ok r, st1) ->
        checkRateMinimum request r st1 = (Ok tt, st2) ->
        fetched (snd (getFixedQuote host request st))
        = fetched st ++ [rateCall; createCall]).
Proof.
  intros Hprep rateCall createCall. subst rateCall createCall.
  assert (Hstart : fetched st0 = fetched st)
    by exact (prepareQuote_Ok_fetched _ _ _ _ Hprep).
  assert (Hrated : forall x st1,
             getRate host request (quoteParams p) st0 = (x, st1) ->
             fetched st1
             = fetched st ++ [fetchArgs host GET "rate" (quoteParams p)]).
  { intros x st1 Hrate.
    pose proof (getRate_fetched request (quoteParams p) st0) as Hlog.
    rewrite Hrate in Hlog. simpl in Hlog. now rewrite Hlog, Hstart. }
  assert (Hchecked : forall r st1 x st2,
             checkRateMinimum request r st1 = (x, st2) ->
             fetched st2 = fetched st1).
  { intros r st1 x st2 Hcheck.
    pose proof (checkRateMinimum_fetched request r st1) as Hlog.
    now rewrite Hcheck in Hlog. }
  unfold getFixedQuote. rewrite (bind_Ok _ _ _ _ _ Hprep).
  split; [| split].
  - intros e st1 Hrate. rewrite (bind_Err _ _ _ _ _ Hrate).
    exact (Hrated _ _ Hrate).
  - intros r st1 e st2 Hrate Hcheck.
    rewrite (bind_Ok _ _ _ _ _ Hrate), (bind_Err _ _ _ _ _ Hcheck). simpl.
    now rewrite (Hchecked _ _ _ _ Hcheck), (Hrated _ _ Hrate).
  - intros r st1 st2 Hrate Hcheck.
    rewrite (bind_Ok _ _ _ _ _ Hrate), (bind_Ok _ _ _ _ _ Hcheck).
    unfold bind.
    pose proof (makeTransaction_fetched request p st2) as Htx.
    destruct (makeTransaction host request p st2) as [[quoteInfo | e] st3];
      simpl in Htx.
    + rewrite assembleOrder_fetched, Htx, (Hchecked _ _ _ _ Hcheck),
        (Hrated _ _ Hrate).
      now rewrite <- app_assoc.
    + simpl. rewrite Htx, (Hchecked _ _ _ _ Hcheck), (Hrated _ _ Hrate).
      now rewrite <- app_assoc.
Qed.

(** C6, as the code has it. The decimal amount of a negotiation is sent under
    [amount] in the rate call and in the binding call, whatever the quote
    direction; a 'to' request sends it under [withdrawalAmount] as well, and
    any other request sends no [withdrawalAmount]. The binding call always
    carries [rateType] "fixed" and empty [withdrawalExtraId] and
    [refundExtraId]. The rate call is sent with these parameters as its
    query as soon as the wallets have answered, and the binding call is sent
    after it, with these parameters as its body, exactly when the rate was
    obtained and the minimum check passed. *)
Theorem amount_parameter_follows_direction request (st st0 : PluginState) p :
  prepareQuote host request st = (Ok p, st0) ->
  let rateParams := quoteParams p in
  let orderParams := mkExchangeParams request p in
  let rateCall := fetchArgs host GET "rate" rateParams in
  let createCall := fetchArgs host POST "transactions" orderParams in
  ((forall r st1 st2,
      getRate host request rateParams st0 = (Ok r, st1) ->
      checkRateMinimum request r st1 = (Ok tt, st2) ->
      fetched (snd (getFixedQuote host request st))
      = fetched st ++ [rateCall; createCall])
   /\ (forall e st1,
         getRate host request rateParams st0 = (Err e, st1) ->
         fetched (snd (getFixedQuote host request st)) = fetched st ++ [rateCall])
   /\ (forall r st1 e st2,
         getRate host request rateParams st0 = (Ok r, st1) ->
         checkRateMinimum request r st1 = (Err e, st2) ->
         fetched (snd (getFixedQuote host request st)) = fetched st ++ [rateCall]))
  /\ sentParams rateCall = rateParams
  /\ sentParams createCall = orderParams
  /\ lookupProp "amount" rateParams = JNum (quoteAmount p)
  /\ lookupProp "amount" orderParams = JNum (quoteAmount p)
  /\ (quoteFor request = quoteTo ->
      lookupProp "withdrawalAmount" rateParams = JNum (quoteAmount p)
      /\ lookupProp "withdrawalAmount" orderParams = JNum (quoteAmount p))
  /\ (quoteFor request <> quoteTo ->
      hasProp "withdrawalAmount" rateParams = false
      /\ hasProp "withdrawalAmount" orderParams = false)
  /\ lookupProp "rateType" orderParams = JStr "fixed"
  /\ lookupProp "withdrawalExtraId" orderParams = JStr EmptyString
  /\ lookupProp "refundExtraId" orderParams = JStr EmptyString.
Proof.
  intros Hprep rateParams orderParams rateCall createCall.
  split.
  { destruct (getFixedQuote_fetched_by_stage request st st0 p Hprep)
      as (Hfailed & Hbelow & Hpassed).
    repeat split; assumption. }
  do 2 (split; [reflexivity |]).
  destruct (prepareQuote_inv _ _ _ _ Hprep)
    as (w1 & w2 & decimal & _ & _ & _ & _ & Hparams).
  subst rateParams orderParams. rewrite Hparams.
  unfold mkExchangeParams, mkQuoteParams.
  destruct (quoteFor request); repeat split; try reflexivity; congruence.
Qed.


(** *** The default of the output-side minimum *)

Lemma asRateResponse_missing_withdrawMin body r :
  asRateResponse body = Ok r ->
  getProp "withdrawMin" body = JUndefined ->
  withdrawMin r = Number_zero.
Proof.
  unfold asRateResponse. intros Hshape Hmissing. rewrite Hmissing in Hshape.
  destruct (isObject body); [| discriminate].
  destruct (asNumber (getProp "minAmount" body)); [| discriminate].
  simpl in Hshape.
  destruct (asNumber (getProp "fromAmount" body)); [| discriminate].
  destruct (asNumber (getProp "toAmount" body)); [| discriminate].
  simpl in Hshape.
  destruct (asEither asString asNull (getProp "message" body)); [| discriminate].
  simpl in Hshape. now injection Hshape as <-.
Qed.

(** C7. For a 'to' request whose rate response has no [withdrawMin], the
    output-side minimum is the number 0, which the to-wallet is asked to
    convert as "0". With a to-wallet that converts "0" to the native amount
    0, the check passes for every non-negative native amount and the
    negotiation goes on to the binding call, which is issued. *)
Theorem missing_withdrawMin_defaults_to_zero
    request (st st0 st1 : PluginState) p body r :
  quoteFor request = quoteTo ->
  prepareQuote host request st = (Ok p, st0) ->
  call host request GET "rate" (quoteParams p) st0 = (Ok body, st1) ->
  getProp "withdrawMin" body = JUndefined ->
  asRateResponse body = Ok r ->
  withdrawMin r = Number_zero
  /\ forall w,
       denominationToNative (toWallet request) "0" (toCurrencyCode request)
         (world st1) = (Ok 0%Z, w) ->
       (0 <= nativeAmount request)%Z ->
       let checked := {| world := w; fetched := fetched st1 |} in
       checkRateMinimum request r st1 = (Ok tt, checked)
       /\ getFixedQuote host request st
          = (await quoteInfo <- makeTransaction host request p;
             assembleOrder host request p quoteInfo) checked
       /\ fetched (snd (getFixedQuote host request st))
          = fetched st
            ++ [fetchArgs host GET "rate" (quoteParams p);
                fetchArgs host POST "transactions" (mkExchangeParams request p)].
Proof.
  intros Hdir Hprep Hcall Hmissing Hshape.
  pose proof (asRateResponse_missing_withdrawMin _ _ Hshape Hmissing) as Hzero.
  split; [exact Hzero |].
  intros w Hconv Hnonneg checked.
  assert (Hrate : getRate host request (quoteParams p) st0 = (Ok r, st1)).
  { unfold getRate. rewrite (bind_Ok _ _ _ _ _ Hcall).
    unfold clean. now rewrite Hshape. }
  assert (Hcheck : checkRateMinimum request r st1 = (Ok tt, checked)).
  { pose proof (checkRateMinimum_below request r st1) as Hc.
    rewrite Hdir in Hc. cbv zeta in Hc.
    rewrite Hzero, Number_zero_toString in Hc.
    rewrite (Hc _ _ Hconv).
    apply Z.ltb_ge in Hnonneg. now rewrite Hnonneg. }
  assert (Hquote : getFixedQuote host request st
                   = (await quoteInfo <- makeTransaction host request p;
                      assembleOrder host request p quoteInfo) checked).
  { unfold getFixedQuote.
    now rewrite (bind_Ok _ _ _ _ _ Hprep), (bind_Ok _ _ _ _ _ Hrate),
      (bind_Ok _ _ _ _ _ Hcheck). }
  repeat split; [exact Hcheck | exact Hquote |].
  rewrite Hquote. unfold bind.
  pose proof (makeTransaction_fetched request p checked) as Htx.
  assert (Hlog : fetched st1
                 = fetched st ++ [fetchArgs host GET "rate" (quoteParams p)]).
  { rewrite (getRate_Ok_fetched _ _ _ _ _ Hrate).
    now rewrite (prepareQuote_Ok_fetched _ _ _ _ Hprep). }
  destruct (makeTransaction host request p checked) as [[quoteInfo | e] st3];
    simpl in Htx.
  - rewrite assembleOrder_fetched, Htx, Hlog. now rewrite <- app_assoc.
  - simpl. rewrite Htx, Hlog. now rewrite <- app_assoc.
Qed.

(** *** Rejection before the network *)

(** The pairs on the plugin's blacklist: (zcash, ZEC) and no other. *)
Lemma refused_pairs chain code :
  isBlacklisted INVALID_CURRENCY_CODES chain code = true
  <-> chain = "zcash" /\ code = "ZEC".
Proof.
  unfold isBlacklisted, isInvalidCode. simpl. rewrite lookup_empty. simpl.
  destruct (decide (chain = "zcash")) as [-> | Hother].
  - rewrite lookup_singleton_eq. simpl. rewrite orb_false_r.
    rewrite String.eqb_eq. now intuition.
  - rewrite lookup_singleton_ne by congruence.
    split; [discriminate | now intros [? _]].
Qed.

(** C5. A request is refused with the currency-unsupported error, in the
    state it arrived in (no fetch issued, nothing asked of a wallet), as soon
    as the chain of either leg is missing from the transcription table or the
    (chain, code) pair of either leg is on the blacklist, whatever the other
    leg is. *)
Theorem unsupported_currency_rejected_before_any_fetch req (st : PluginState) :
  let request := convertRequest host req in
  MAINNET_CODE_TRANSCRIPTION !! currencyInfo_pluginId (fromWallet request) = None
  \/ MAINNET_CODE_TRANSCRIPTION !! currencyInfo_pluginId (toWallet request) = None
  \/ isBlacklisted INVALID_CURRENCY_CODES
       (currencyInfo_pluginId (fromWallet request)) (fromCurrencyCode request)
     = true
  \/ isBlacklisted INVALID_CURRENCY_CODES
       (currencyInfo_pluginId (toWallet request)) (toCurrencyCode request)
     = true ->
  fetchSwapQuote host req st = (Err (SwapCurrencyError swapInfo request), st).
Proof.
  intros request Hbad. unfold fetchSwapQuote. fold request.
  unfold bind at 1, liftResult at 1, checkInvalidCodes.
  destruct (isBlacklisted INVALID_CURRENCY_CODES
              (currencyInfo_pluginId (fromWallet request))
              (fromCurrencyCode request)) eqn:Hfrom; [reflexivity |].
  destruct (isBlacklisted INVALID_CURRENCY_CODES
              (currencyInfo_pluginId (toWallet request))
              (toCurrencyCode request)) eqn:Hto; [reflexivity |].
  simpl.
  unfold bind at 1, liftResult at 1, checkWhitelistedMainnetCodes.
  destruct Hbad as [Hbad | [Hbad | [Hbad | Hbad]]]; try discriminate.
  - now rewrite Hbad.
  - rewrite Hbad.
    now destruct (MAINNET_CODE_TRANSCRIPTION
                    !! currencyInfo_pluginId (fromWallet request)).
Qed.

(** *** The answer behind a bound order *)

(** A bound order is the cleaned JSON body of the answer [fetchCors] gave to
    the binding call. *)
Lemma makeTransaction_inv request p (st st' : PluginState) quoteInfo :
  makeTransaction host request p st = (Ok quoteInfo, st') ->
  exists response body,
    fetchCors host
      (fetchArgs host POST "transactions" (mkExchangeParams request p)) (world st)
    = (Ok response, world st')
    /\ json response = Some body
    /\ asQuoteInfo body = Ok quoteInfo
    /\ fetched st'
       = fetched st
         ++ [fetchArgs host POST "transactions" (mkExchangeParams request p)].
Proof.
  unfold makeTransaction. intros Htx.
  apply bind_inv in Htx as (callJson & st1 & Hcall & Hclean).
  unfold clean in Hclean.
  destruct (asQuoteInfo callJson) as [q | msg] eqn:Hshape;
    unfold ret, throw in Hclean; [| discriminate].
  injection Hclean as <- <-.
  destruct (fetchCors host
              (fetchArgs host POST "transactions" (mkExchangeParams request p))
              (world st)) as [[response | e] w] eqn:Hfetch.
  - rewrite (call_response _ _ _ _ _ _ _ Hfetch) in Hcall.
    injection Hcall as Hresult <-. simpl.
    exists response, callJson. repeat split; try assumption.
    destruct (negb (ok response)).
    + destruct (status response =? 422)%Z; [| discriminate].
      destruct (json response) as [resJson |]; [| discriminate].
      destruct (asMaybe asRateResponse resJson); [| discriminate].
      now injection Hresult as ->.
    + destruct (json response) as [v |]; [| discriminate].
      now injection Hresult as ->.
  - unfold call, bind, fetch in Hcall. rewrite Hfetch in Hcall. discriminate.
Qed.

Lemma asQuoteInfo_amounts (body : JsValue number) quoteInfo :
  asQuoteInfo body = Ok quoteInfo ->
  getProp "amount" body = JNum (amount quoteInfo)
  /\ getProp "amountTo" body = JNum (amountTo quoteInfo).
Proof.
  unfold asQuoteInfo, asOptional_, asNumber, asString. intros Hshape.
  destruct (isObject body); [| discriminate].
  destruct (getProp "id" body); try discriminate.
  destruct (getProp "amount" body); try discriminate.
  destruct (getProp "amountTo" body); try discriminate.
  destruct (getProp "depositAddress" body); try discriminate.
  simpl in Hshape.
  destruct (isNullish (getProp "depositExtraId" body));
    [| destruct (getProp "depositExtraId" body); try discriminate];
    simpl in Hshape; injection Hshape as <-; now split.
Qed.

End Properties.

(** *** What of the rate response reaches the outcome *)

Section RateResponseFlow.
Context {number : Type} `{JsNumber number}.
Context {World EdgeSwapRequest EdgeSwapQuote : Type}.

Local Abbreviation Request := (EdgeSwapRequestPlugin World).
Local Abbreviation PluginState := (State number World).

Variable host : Host number World EdgeSwapRequest EdgeSwapQuote.
Variable fetchCors' :
  FetchCall number -> World -> result string (EdgeFetchResponse number) * World.

Let host' := withFetch host fetchCors'.

Local Open Scope plugin_scope.
Local Open Scope list_scope.

Lemma checkRateMinimum_limits (request : Request) (r1 r2 : RateResponse number) :
  minAmount r1 = minAmount r2 ->
  withdrawMin r1 = withdrawMin r2 ->
  checkRateMinimum request r1 = checkRateMinimum request r2.
Proof. intros Hmin Hout. unfold checkRateMinimum. now rewrite Hmin, Hout. Qed.

Lemma call_withFetch request method route params (st : PluginState) :
  fetchCors host (fetchArgs host method route params) (world st)
  = fetchCors' (fetchArgs host method route params) (world st) ->
  call host' request method route params st
  = call host request method route params st.
Proof.
  intros Hsame. unfold call, bind, fetch.
  change (fetchArgs host' method route params)
    with (fetchArgs host method route params).
  change (fetchCors host') with fetchCors'.
  now rewrite Hsame.
Qed.

Hypothesis agree : rateAnswersAgree (fetchCors host) fetchCors'.

Lemma makeTransaction_withFetch request p (st : PluginState) :
  makeTransaction host' request p st = makeTransaction host request p st.
Proof.
  unfold makeTransaction, bind.
  rewrite call_withFetch; [reflexivity |].
  destruct (agree (fetchArgs host POST "transactions" (mkExchangeParams request p))
                  (world st)) as [Hsame | [Hget _]];
    [exact Hsame | discriminate Hget].
Qed.

(** The two rate calls end alike, or both succeed in the same state with
    rate responses of equal minimums. *)
Lemma getRate_withFetch request params (st : PluginState) :
  getRate host' request params st = getRate host request params st
  \/ exists r r' st1,
       getRate host request params st = (Ok r, st1)
       /\ getRate host' request params st = (Ok r', st1)
       /\ minAmount r = minAmount r' /\ withdrawMin r = withdrawMin r'.
Proof.
  destruct (agree (fetchArgs host GET "rate" params) (world st))
    as [Hsame |
        (_ & _ & response1 & response2 & w' & b1 & b2 & Hfetch1 & Hfetch2
           & Hok & Hstatus & Hjson1 & Hjson2
           & r1 & r2 & Hshape1 & Hshape2 & Hmin & Hout)].
  - left. unfold getRate, bind. now rewrite call_withFetch.
  - pose proof (call_response host request GET "rate" params st _ _ Hfetch1)
      as Hcall1.
    pose proof (call_response host' request GET "rate" params st
                  response2 w' Hfetch2) as Hcall2.
    change (fetchArgs host' GET "rate" params)
      with (fetchArgs host GET "rate" params) in Hcall2.
    rewrite Hjson1 in Hcall1. rewrite Hjson2, <- Hok, <- Hstatus in Hcall2.
    unfold asMaybe in Hcall1, Hcall2. rewrite Hshape1 in Hcall1.
    rewrite Hshape2 in Hcall2.
    unfold getRate.
    destruct (negb (ok response1)); [destruct (status response1 =? 422)%Z |].
    + right. exists r1, r2. eexists.
      rewrite (bind_Ok _ _ _ _ _ Hcall1), (bind_Ok _ _ _ _ _ Hcall2).
      unfold clean. rewrite Hshape1, Hshape2. now repeat split.
    + left. now rewrite (bind_Err _ _ _ _ _ Hcall1), (bind_Err _ _ _ _ _ Hcall2).
    + right. exists r1, r2. eexists.
      rewrite (bind_Ok _ _ _ _ _ Hcall1), (bind_Ok _ _ _ _ _ Hcall2).
      unfold clean. rewrite Hshape1, Hshape2. now repeat split.
Qed.

(** C10. Two negotiations of one request from one state, over networks that
    differ at most in the [fromAmount], [toAmount] and [message] of a valid
    rate response, end with the same result in the same state. And every
    assembled order comes after the binding call, which [fetchCors] answered
    with a JSON body: the order's native input and output amounts are the
    from- and to-wallet's conversions of the numbers under [amount] and
    [amountTo] of that body. *)
Theorem quoted_amounts_of_rate_response_are_unused
    (request : Request) (st : PluginState) :
  getFixedQuote host' request st = getFixedQuote host request st
  /\ forall order st',
       getFixedQuote host request st = (Ok order, st') ->
       exists p st0 r st1 st2 response answered body sent received toNative w,
         prepareQuote host request st = (Ok p, st0)
         /\ getRate host request (quoteParams p) st0 = (Ok r, st1)
         /\ checkRateMinimum request r st1 = (Ok tt, st2)
         /\ fetchCors host
              (fetchArgs host POST "transactions" (mkExchangeParams request p))
              (world st2)
            = (Ok response, answered)
         /\ json response = Some body
         /\ getProp "amount" body = JNum sent
         /\ getProp "amountTo" body = JNum received
         /\ denominationToNative (fromWallet request)
              (Number_toString sent) (fromCurrencyCode request) answered
            = (Ok (fromNativeAmount order), w)
         /\ denominationToNative (toWallet request)
              (Number_toString received) (toCurrencyCode request) w
            = (Ok toNative, world st')
         /\ map target_nativeAmount (spendTargets (spendInfo order))
            = [fromNativeAmount order]
         /\ asset_nativeAmount (fromAsset (savedAction (spendInfo order)))
            = fromNativeAmount order
         /\ asset_nativeAmount (toAsset (savedAction (spendInfo order)))
            = toNative
         /\ fetched st'
            = fetched st
              ++ [fetchArgs host GET "rate" (quoteParams p);
                  fetchArgs host POST "transactions"
                    (mkExchangeParams request p)].
Proof.
  split.
  - assert (Htail : forall p r (st1 : PluginState),
               (run checkRateMinimum request r;
                await quoteInfo <- makeTransaction host' request p;
                assembleOrder host' request p quoteInfo) st1
               = (run checkRateMinimum request r;
                  await quoteInfo <- makeTransaction host request p;
                  assembleOrder host request p quoteInfo) st1).
    { intros p r st1. unfold bind.
      destruct (checkRateMinimum request r st1) as [[[] | e] st2];
        [| reflexivity].
      now rewrite makeTransaction_withFetch. }
    unfold getFixedQuote.
    change (prepareQuote host' request) with (prepareQuote host request).
    unfold bind at 1 5.
    destruct (prepareQuote host request st) as [[p | e] st0]; [| reflexivity].
    destruct (getRate_withFetch request (quoteParams p) st0)
      as [Hsame | (r & r' & st1 & Hrate & Hrate' & Hmin & Hout)].
    + unfold bind at 1 4. rewrite Hsame.
      destruct (getRate host request (quoteParams p) st0) as [[r | e] st1];
        [apply Htail | reflexivity].
    + rewrite (bind_Ok _ _ _ _ _ Hrate), (bind_Ok _ _ _ _ _ Hrate').
      rewrite Htail.
      now rewrite (checkRateMinimum_limits request r r' Hmin Hout).
  - intros order st' Hq.
    apply getFixedQuote_inv in Hq
      as (p & st0 & r & st1 & st2 & quoteInfo & st3
          & Hprep & Hrate & Hcheck & Htx & Ha).
    apply makeTransaction_inv in Htx
      as (response & body & Hfetch & Hjson & Hshape & Hlog3).
    apply asQuoteInfo_amounts in Hshape as [Hsent Hreceived].
    apply assembleOrder_inv in Ha
      as (fromNative & toNative & w & Hfrom & Hto & Hlog4 & ->).
    exists p, st0, r, st1, st2, response, (world st3), body,
      (amount quoteInfo), (amountTo quoteInfo), toNative, w.
    simpl. repeat split; try assumption.
    rewrite Hlog4, Hlog3.
    assert (Hlog2 : fetched st2 = fetched st1).
    { pose proof (checkRateMinimum_fetched request r st1) as Hlog.
      now rewrite Hcheck in Hlog. }
    rewrite Hlog2, (getRate_Ok_fetched host _ _ _ _ _ Hrate),
      (prepareQuote_Ok_fetched host _ _ _ _ Hprep).
    now rewrite <- app_assoc.
Qed.

End RateResponseFlow.

(** ** Further properties of the plugin *)

Section Validation.
Context {number : Type} `{JsNumber number}.

(** X1. [asRateResponse] fails closed. A body is accepted exactly when it is
    an object (or array) whose [minAmount], [fromAmount] and [toAmount] are
    numbers, whose [withdrawMin] is a number or is missing or [null] (then 0
    is taken), and whose [message] is a string or [null]; a body without
    [message] is refused. The accepted record holds those values, and no
    other field is looked at. *)
Theorem asRateResponse_accepts_exactly (body : JsValue number) r :
  asRateResponse body = Ok r
  <-> isObject body = true
      /\ getProp "minAmount" body = JNum (minAmount r)
      /\ (getProp "withdrawMin" body = JNum (withdrawMin r)
          \/ isNullish (getProp "withdrawMin" body) = true
             /\ withdrawMin r = Number_zero)
      /\ getProp "fromAmount" body = JNum (fromAmount r)
      /\ getProp "toAmount" body = JNum (toAmount r)
      /\ match message r with
         | inl text => getProp "message" body = JStr text
         | inr _ => getProp "message" body = JNull
         end.
Proof.
  unfold asRateResponse, asOptional, asEither, asNumber, asString, asNull.
  destruct r as [rmin rout rin rto rmsg]. simpl.
  split.
  - intros Hshape.
    destruct (isObject body); [| discriminate].
    destruct (getProp "minAmount" body); try discriminate.
    destruct (getProp "withdrawMin" body); try discriminate;
      destruct (getProp "fromAmount" body); try discriminate;
      destruct (getProp "toAmount" body); try discriminate;
      destruct (getProp "message" body); try discriminate;
      simpl in Hshape; injection Hshape as <- <- <- <- <-;
      repeat split; auto.
  - intros (Hobj & Hmin & Hout & Hin & Hto & Hmsg).
    rewrite Hobj, Hmin, Hin, Hto.
    destruct rmsg as [text | []]; rewrite Hmsg;
      destruct Hout as [-> | [Hnull ->]]; simpl; try reflexivity;
      now rewrite Hnull.
Qed.

(** X2. [asQuoteInfo] fails closed. A body is accepted exactly when it is an
    object whose [id] and [depositAddress] are strings and whose [amount] and
    [amountTo] are numbers; [depositExtraId] is a string, or absent when it
    is missing or [null]. *)
Theorem asQuoteInfo_accepts_exactly (body : JsValue number) q :
  asQuoteInfo body = Ok q
  <-> isObject body = true
      /\ getProp "id" body = JStr (id q)
      /\ getProp "amount" body = JNum (amount q)
      /\ getProp "amountTo" body = JNum (amountTo q)
      /\ getProp "depositAddress" body = JStr (depositAddress q)
      /\ match depositExtraId q with
         | Some extraId => getProp "depositExtraId" body = JStr extraId
         | None => isNullish (getProp "depositExtraId" body) = true
         end.
Proof.
  unfold asQuoteInfo, asOptional_, asNumber, asString.
  destruct q as [qid qamount qto qaddress qextra]. simpl.
  split.
  - intros Hshape.
    destruct (isObject body); [| discriminate].
    destruct (getProp "id" body); try discriminate.
    destruct (getProp "amount" body); try discriminate.
    destruct (getProp "amountTo" body); try discriminate.
    destruct (getProp "depositAddress" body); try discriminate.
    destruct (getProp "depositExtraId" body); try discriminate;
      simpl in Hshape; injection Hshape as <- <- <- <- <-;
      repeat split; auto.
  - intros (Hobj & Hid & Hamount & Hto & Haddress & Hextra).
    rewrite Hobj, Hid, Hamount, Hto, Haddress. simpl.
    destruct qextra as [extraId |].
    + now rewrite Hextra.
    + now rewrite Hextra.
Qed.

End Validation.

Section Negotiation.
Context {number : Type} `{JsNumber number}.
Context {World EdgeSwapRequest EdgeSwapQuote : Type}.

Local Abbreviation Request := (EdgeSwapRequestPlugin World).
Local Abbreviation PluginState := (State number World).

Variable host : Host number World EdgeSwapRequest EdgeSwapQuote.

Local Open Scope plugin_scope.
Local Open Scope list_scope.

(** X3. Whatever comes back, [call] hands exactly one request to
    [fetchCors]: to the API root followed by the route, with the method
    asked for and the API key as [Authorization]; a GET carries the
    parameters in its query and has no body, a POST carries them as its body
    and has no query. *)
Theorem call_issues_one_authenticated_fetch
    request method route params (st : PluginState) :
  exists c,
    fetched (snd (call host request method route params st)) = fetched st ++ [c]
    /\ fc_url c = uri +:+ route
    /\ fc_method c = method
    /\ fc_headers c
       = [("Accept", "application/json"); ("Content-Type", "application/json");
          ("Authorization", apiKey host)]
    /\ match method with
       | GET => fc_query c = Some params /\ fc_body c = None
       | POST => fc_body c = Some params /\ fc_query c = None
       end.
Proof.
  exists (fetchArgs host method route params).
  split; [apply call_fetched |].
  now destruct method.
Qed.

(** A rate answer with a success status whose body the cleaner refuses. *)
Lemma refused_rate_body_ends request (st st0 : PluginState) p response w body msg :
  prepareQuote host request st = (Ok p, st0) ->
  fetchCors host (fetchArgs host GET "rate" (quoteParams p)) (world st0)
  = (Ok response, w) ->
  ok response = true ->
  json response = Some body ->
  asRateResponse body = Err msg ->
  getFixedQuote host request st
  = (Err (TypeError msg),
     {| world := w;
        fetched := fetched st ++ [fetchArgs host GET "rate" (quoteParams p)] |}).
Proof.
  intros Hprep Hfetch Hok Hjson Hshape.
  rewrite <- (prepareQuote_Ok_fetched host _ _ _ _ Hprep).
  pose proof (call_response host request GET "rate" (quoteParams p) st0 _ _ Hfetch)
    as Hcall.
  rewrite Hok, Hjson in Hcall. simpl in Hcall.
  unfold getFixedQuote. rewrite (bind_Ok _ _ _ _ _ Hprep).
  apply bind_Err. unfold getRate.
  rewrite (bind_Ok _ _ _ _ _ Hcall).
  unfold clean. now rewrite Hshape.
Qed.

(** X4. A rate answer with a success status is taken at its word: a body
    that is JSON but no rate response ends the negotiation with the
    cleaner's [TypeError] (not with the currency error a 422 would give),
    and a body that is not JSON ends it with a [SyntaxError], with success
    status and with 422 alike. The rate call is the only fetch. *)
Theorem bad_rate_body_ends_negotiation
    request (st st0 : PluginState) p response w :
  prepareQuote host request st = (Ok p, st0) ->
  fetchCors host (fetchArgs host GET "rate" (quoteParams p)) (world st0)
  = (Ok response, w) ->
  let after :=
    {| world := w;
       fetched := fetched st ++ [fetchArgs host GET "rate" (quoteParams p)] |} in
  (ok response = true ->
   forall body msg,
     json response = Some body ->
     asRateResponse body = Err msg ->
     getFixedQuote host request st = (Err (TypeError msg), after))
  /\ (ok response = true \/ status response = 422%Z ->
      json response = None ->
      getFixedQuote host request st = (Err SyntaxError, after)).
Proof.
  intros Hprep Hfetch after. subst after.
  rewrite <- (prepareQuote_Ok_fetched host _ _ _ _ Hprep).
  pose proof (call_response host request GET "rate" (quoteParams p) st0 _ _ Hfetch)
    as Hcall.
  split.
  - intros Hok body msg Hjson Hshape.
    rewrite Hok, Hjson in Hcall. simpl in Hcall.
    unfold getFixedQuote. rewrite (bind_Ok _ _ _ _ _ Hprep).
    apply bind_Err. unfold getRate.
    rewrite (bind_Ok _ _ _ _ _ Hcall).
    unfold clean. now rewrite Hshape.
  - intros Hstatus Hjson. rewrite Hjson in Hcall.
    assert (Hcall' : call host request GET "rate" (quoteParams p) st0
                     = (Err SyntaxError,
                        {| world := w;
                           fetched := fetched st0
                             ++ [fetchArgs host GET "rate" (quoteParams p)] |})).
    { rewrite Hcall. destruct Hstatus as [Hok | H422].
      - now rewrite Hok.
      - rewrite H422. now destruct (negb (ok response)). }
    unfold getFixedQuote. rewrite (bind_Ok _ _ _ _ _ Hprep).
    apply bind_Err. unfold getRate. now apply bind_Err.
Qed.

(** X5. When the network itself fails on the rate call, the negotiation ends
    with that rejection; the rate call is the only fetch and no binding call
    is attempted. *)
Theorem rejected_rate_fetch_ends_negotiation
    request (st st0 : PluginState) p e w :
  prepareQuote host request st = (Ok p, st0) ->
  fetchCors host (fetchArgs host GET "rate" (quoteParams p)) (world st0)
  = (Err e, w) ->
  getFixedQuote host request st
  = (Err (FetchRejection e),
     {| world := w;
        fetched := fetched st ++ [fetchArgs host GET "rate" (quoteParams p)] |}).
Proof.
  intros Hprep Hfetch.
  rewrite <- (prepareQuote_Ok_fetched host _ _ _ _ Hprep).
  unfold getFixedQuote. rewrite (bind_Ok _ _ _ _ _ Hprep).
  apply bind_Err. unfold getRate. apply bind_Err.
  unfold call. apply bind_Err. unfold fetch. now rewrite Hfetch.
Qed.


(** A negotiation that fails before the rate call has fetched nothing. *)
Lemma prepareQuote_Err_ends request (st st0 : PluginState) e :
  prepareQuote host request st = (Err e, st0) ->
  getFixedQuote host request st = (Err e, st0) /\ fetched st0 = fetched st.
Proof.
  intros Hprep.
  split; [unfold getFixedQuote; now apply bind_Err |].
  pose proof (prepareQuote_fetched host request st) as Hlog.
  now rewrite Hprep in Hlog.
Qed.


(** X7. One negotiation fetches nothing, or the rate call alone, or the rate
    call followed by the binding call: the binding call is never issued
    twice, and never before the rate call has been answered. *)
Theorem at_most_one_binding_call request (st : PluginState) :
  exists calls,
    fetched (snd (getFixedQuote host request st)) = fetched st ++ calls
    /\ (calls = []
        \/ exists p,
             calls = [fetchArgs host GET "rate" (quoteParams p)]
             \/ calls = [fetchArgs host GET "rate" (quoteParams p);
                         fetchArgs host POST "transactions"
                           (mkExchangeParams request p)])
    /\ length (filter isCreateTransaction calls) <= 1.
Proof.
  destruct (prepareQuote host request st) as [[p | e] st0] eqn:Hprep.
  - destruct (getFixedQuote_fetched host request st st0 p Hprep) as [Hlog | Hlog];
      eexists; (split; [exact Hlog |]); split;
      try (right; exists p; auto; fail); simpl; lia.
  - exists []. rewrite app_nil_r.
    destruct (prepareQuote_Err_ends request st st0 e Hprep) as [Hquote Hlog].
    rewrite Hquote. simpl. split; [exact Hlog |]. split; [now left | lia].
Qed.

(** What a passed check means. *)
Lemma checkRateMinimum_inv request r (st st' : PluginState) :
  checkRateMinimum request r st = (Ok tt, st') ->
  exists nativeMin,
    match quoteFor request with
    | quoteFrom =>
        denominationToNative (fromWallet request)
          (Number_toString (minAmount r)) (fromCurrencyCode request) (world st)
    | _ =>
        denominationToNative (toWallet request)
          (Number_toString (withdrawMin r)) (toCurrencyCode request) (world st)
    end = (Ok nativeMin, world st')
    /\ (nativeMin <= nativeAmount request)%Z
    /\ fetched st' = fetched st.
Proof.
  unfold checkRateMinimum. intros Hcheck.
  destruct (quoteFor request);
    apply bind_inv in Hcheck as (nativeMin & st1 & Hconv & Hcheck);
    apply external_inv in Hconv as [Hconv Hlog];
    destruct (Z.ltb_spec (nativeAmount request) nativeMin) as [Hlt | Hge];
    try discriminate;
    unfold ret in Hcheck; injection Hcheck as <-;
    exists nativeMin; repeat split; assumption.
Qed.

(** A successful negotiation made the rate call and then the binding call. *)
Lemma successful_negotiation_fetched request (st st0 st' : PluginState) p order :
  prepareQuote host request st = (Ok p, st0) ->
  getFixedQuote host request st = (Ok order, st') ->
  fetched st'
  = fetched st
    ++ [fetchArgs host GET "rate" (quoteParams p);
        fetchArgs host POST "transactions" (mkExchangeParams request p)].
Proof.
  intros Hprep Hq.
  destruct (getFixedQuote_inv host _ _ _ _ Hq)
    as (p' & st0' & r & st1 & st2 & quoteInfo & st3
        & Hprep' & Hrate & Hcheck & Htx & Ha).
  rewrite Hprep in Hprep'. injection Hprep' as <- <-.
  destruct (checkRateMinimum_inv _ _ _ _ Hcheck) as (nativeMin & _ & _ & Hlog2).
  apply (assembleOrder_inv host) in Ha as (_ & _ & _ & _ & _ & Hlog4 & _).
  pose proof (makeTransaction_fetched host request p st2) as Hlog3.
  rewrite Htx in Hlog3. simpl in Hlog3.
  rewrite Hlog4, Hlog3, Hlog2, (getRate_Ok_fetched host _ _ _ _ _ Hrate),
    (prepareQuote_Ok_fetched host _ _ _ _ Hprep).
  now rewrite <- app_assoc.
Qed.

(** X8. An order is assembled only for a request at or above the minimum of
    its side: in every successful negotiation the wallet converted the rate
    response's minimum of the quoted side to a native amount that is at most
    the request's native amount, and exactly two fetches were made, the rate
    call and then the binding call. *)
Theorem order_only_at_or_above_minimum request (st st' : PluginState) order :
  getFixedQuote host request st = (Ok order, st') ->
  exists p st0 r st1 nativeMin w,
    prepareQuote host request st = (Ok p, st0)
    /\ getRate host request (quoteParams p) st0 = (Ok r, st1)
    /\ match quoteFor request with
       | quoteFrom =>
           denominationToNative (fromWallet request)
             (Number_toString (minAmount r)) (fromCurrencyCode request) (world st1)
       | _ =>
           denominationToNative (toWallet request)
             (Number_toString (withdrawMin r)) (toCurrencyCode request) (world st1)
       end = (Ok nativeMin, w)
    /\ (nativeMin <= nativeAmount request)%Z
    /\ fetched st'
       = fetched st
         ++ [fetchArgs host GET "rate" (quoteParams p);
             fetchArgs host POST "transactions" (mkExchangeParams request p)].
Proof.
  intros Hq.
  destruct (getFixedQuote_inv host _ _ _ _ Hq)
    as (p & st0 & r & st1 & st2 & quoteInfo & st3
        & Hprep & Hrate & Hcheck & Htx & Ha).
  destruct (checkRateMinimum_inv _ _ _ _ Hcheck) as (nativeMin & Hconv & Hle & Hlog2).
  exists p, st0, r, st1, nativeMin, (world st2).
  repeat split; try assumption.
  apply (assembleOrder_inv host) in Ha as (_ & _ & _ & _ & _ & Hlog4 & _).
  pose proof (makeTransaction_fetched host request p st2) as Hlog3.
  rewrite Htx in Hlog3. simpl in Hlog3.
  rewrite Hlog4, Hlog3, Hlog2, (getRate_Ok_fetched host _ _ _ _ _ Hrate),
    (prepareQuote_Ok_fetched host _ _ _ _ Hprep).
  now rewrite <- app_assoc.
Qed.

(** X9. A binding answer that does not validate as a bound order leaves the
    caller with the cleaner's [TypeError] although the binding call has been
    made: the order exists at the exchange and none is returned. *)
Theorem invalid_binding_answer_loses_the_order
    request (st st0 st1 st2 : PluginState) p r response w body msg :
  prepareQuote host request st = (Ok p, st0) ->
  getRate host request (quoteParams p) st0 = (Ok r, st1) ->
  checkRateMinimum request r st1 = (Ok tt, st2) ->
  fetchCors host
    (fetchArgs host POST "transactions" (mkExchangeParams request p)) (world st2)
  = (Ok response, w) ->
  ok response = true ->
  json response = Some body ->
  asQuoteInfo body = Err msg ->
  getFixedQuote host request st
  = (Err (TypeError msg),
     {| world := w;
        fetched := fetched st
          ++ [fetchArgs host GET "rate" (quoteParams p);
              fetchArgs host POST "transactions" (mkExchangeParams request p)] |}).
Proof.
  intros Hprep Hrate Hcheck Hfetch Hok Hjson Hshape.
  pose proof (call_response host request POST "transactions"
                (mkExchangeParams request p) st2 _ _ Hfetch) as Hcall.
  rewrite Hok, Hjson in Hcall. simpl in Hcall.
  assert (Hlog : fetched st2
                 = fetched st ++ [fetchArgs host GET "rate" (quoteParams p)]).
  { destruct (checkRateMinimum_inv _ _ _ _ Hcheck) as (_ & _ & _ & ->).
    rewrite (getRate_Ok_fetched host _ _ _ _ _ Hrate).
    now rewrite (prepareQuote_Ok_fetched host _ _ _ _ Hprep). }
  rewrite Hlog, <- app_assoc in Hcall. simpl in Hcall.
  unfold getFixedQuote.
  rewrite (bind_Ok _ _ _ _ _ Hprep), (bind_Ok _ _ _ _ _ Hrate),
    (bind_Ok _ _ _ _ _ Hcheck).
  apply bind_Err. unfold makeTransaction.
  rewrite (bind_Ok _ _ _ _ _ Hcall).
  unfold clean. now rewrite Hshape.
Qed.

(** X10. The order of a successful negotiation agrees with what was sent to
    the exchange: its payout and refund addresses are the addresses the to-
    and from-wallet gave at the start, and they are the [withdrawalAddress]
    and [refundAddress] of the binding call; the order keeps the request it
    was made for, spends to one target for the native input amount, and its
    tracking URI is the order URI prefix followed by the order id. *)
Theorem order_agrees_with_binding_call request (st st' : PluginState) order :
  getFixedQuote host request st = (Ok order, st') ->
  let action := savedAction (spendInfo order) in
  exists rateParams orderParams w1 w2,
    fetched st'
    = fetched st ++ [fetchArgs host GET "rate" rateParams;
                     fetchArgs host POST "transactions" orderParams]
    /\ getAddress host (fromWallet request) (world st)
       = (Ok (refundAddress action), w1)
    /\ getAddress host (toWallet request) w1 = (Ok (payoutAddress action), w2)
    /\ lookupProp "withdrawalAddress" orderParams = JStr (payoutAddress action)
    /\ lookupProp "refundAddress" orderParams = JStr (refundAddress action)
    /\ order_request order = request
    /\ map target_nativeAmount (spendTargets (spendInfo order))
       = [fromNativeAmount order]
    /\ payoutWalletId action = wallet_id (toWallet request)
    /\ action_orderUri action
       = "https://exolix.com/transaction/" +:+ orderId action.
Proof.
  intros Hq action.
  destruct (getFixedQuote_inv host _ _ _ _ Hq)
    as (p & st0 & r & st1 & st2 & quoteInfo & st3
        & Hprep & _ & _ & _ & Ha).
  pose proof (successful_negotiation_fetched _ _ _ _ _ _ Hprep Hq) as Hlog.
  apply (assembleOrder_inv host) in Ha as (fromNative & toNative & w' & _ & _ & _ & ->).
  destruct (prepareQuote_inv host _ _ _ _ Hprep)
    as (w1 & w2 & decimal & Hfrom & Hto & _ & _ & _).
  exists (quoteParams p), (mkExchangeParams request p), w1, w2.
  subst action. simpl.
  repeat split; try assumption.
  - unfold mkExchangeParams. now destruct (quoteFor request).
  - unfold mkExchangeParams. now destruct (quoteFor request).
Qed.

(** X11. The binding call names the pair as the rate call did: both carry the
    currency and network codes that [getCodesWithTranscription] gave for the
    request, the same amount, and the rate type "fixed". *)
Theorem binding_call_repeats_the_rate_call request (st st0 : PluginState) p :
  prepareQuote host request st = (Ok p, st0) ->
  let codes := getCodesWithTranscription host request MAINNET_CODE_TRANSCRIPTION in
  let rateParams := quoteParams p in
  let orderParams := mkExchangeParams request p in
  (lookupProp "coinFrom" rateParams = JStr (codes_fromCurrencyCode codes)
   /\ lookupProp "coinFrom" orderParams = JStr (codes_fromCurrencyCode codes))
  /\ (lookupProp "coinFromNetwork" rateParams = JStr (fromMainnetCode codes)
      /\ lookupProp "networkFrom" orderParams = JStr (fromMainnetCode codes))
  /\ (lookupProp "coinTo" rateParams = JStr (codes_toCurrencyCode codes)
      /\ lookupProp "coinTo" orderParams = JStr (codes_toCurrencyCode codes))
  /\ (lookupProp "coinToNetwork" rateParams = JStr (toMainnetCode codes)
      /\ lookupProp "networkTo" orderParams = JStr (toMainnetCode codes))
  /\ lookupProp "amount" rateParams = lookupProp "amount" orderParams
  /\ lookupProp "withdrawalAmount" rateParams
     = lookupProp "withdrawalAmount" orderParams
  /\ lookupProp "rateType" rateParams = JStr "fixed"
  /\ lookupProp "rateType" orderParams = JStr "fixed".
Proof.
  intros Hprep codes rateParams orderParams.
  destruct (prepareQuote_inv host _ _ _ _ Hprep)
    as (w1 & w2 & decimal & _ & _ & _ & _ & Hparams).
  subst rateParams orderParams codes. unfold mkExchangeParams.
  rewrite !Hparams. unfold mkQuoteParams.
  destruct (quoteFor request); repeat split; reflexivity.
Qed.

(** X12. A request still marked 'max' when it reaches the negotiation is
    quoted on the output side without being sent as one: its amount is
    converted by the to-wallet with the to-side code and it is checked
    against [withdrawMin] with a 'to' error, but neither call carries
    [withdrawalAmount], so the exchange reads the amount as an input
    amount. *)
Theorem max_request_is_half_an_output_quote request (st st0 : PluginState) p :
  quoteFor request = quoteMax ->
  prepareQuote host request st = (Ok p, st0) ->
  (exists w decimal,
     nativeToDenomination (toWallet request) (nativeAmount request)
       (toCurrencyCode request) w = (Ok decimal, world st0)
     /\ quoteAmount p = parseFloat decimal)
  /\ lookupProp "amount" (quoteParams p) = JNum (quoteAmount p)
  /\ hasProp "withdrawalAmount" (quoteParams p) = false
  /\ hasProp "withdrawalAmount" (mkExchangeParams request p) = false
  /\ forall r (st1 : PluginState) nativeMin w,
       denominationToNative (toWallet request)
         (Number_toString (withdrawMin r)) (toCurrencyCode request) (world st1)
       = (Ok nativeMin, w) ->
       (nativeAmount request < nativeMin)%Z ->
       fst (checkRateMinimum request r st1)
       = Err (SwapBelowLimitError swapInfo nativeMin dirTo).
Proof.
  intros Hmax Hprep.
  destruct (prepareQuote_inv host _ _ _ _ Hprep)
    as (w1 & w2 & decimal & _ & _ & Hconv & Hamount & Hparams).
  rewrite Hmax in Hconv.
  split; [now exists w2, decimal |].
  rewrite Hparams. unfold mkExchangeParams, mkQuoteParams. rewrite Hmax.
  repeat split.
  intros r st1 nativeMin w Hmin Hlt.
  pose proof (checkRateMinimum_below request r st1) as Hcheck.
  rewrite Hmax in Hcheck. cbv zeta in Hcheck.
  rewrite (Hcheck _ _ Hmin). apply Z.ltb_lt in Hlt. now rewrite Hlt.
Qed.




(** *** The fee option, letter by letter *)

Lemma ascii_toUpperCase_B c : ascii_toUpperCase c = "B"%char -> c = "B"%char \/ c = "b"%char.
Proof.
  destruct c as [[] [] [] [] [] [] [] []]; vm_compute; intros Hc;
    try discriminate Hc; auto.
Qed.

Lemma ascii_toUpperCase_T c : ascii_toUpperCase c = "T"%char -> c = "T"%char \/ c = "t"%char.
Proof.
  destruct c as [[] [] [] [] [] [] [] []]; vm_compute; intros Hc;
    try discriminate Hc; auto.
Qed.

Lemma ascii_toUpperCase_C c : ascii_toUpperCase c = "C"%char -> c = "C"%char \/ c = "c"%char.
Proof.
  destruct c as [[] [] [] [] [] [] [] []]; vm_compute; intros Hc;
    try discriminate Hc; auto.
Qed.

(** X13. The fee option of the spend is 'high' for exactly the eight
    spellings of the source currency code that differ from "BTC" in letter
    case only, and for no other code, be it longer, shorter or padded. *)
Theorem fee_is_high_for_the_spellings_of_BTC
    request p quoteInfo fromNativeAmount toNativeAmount :
  networkFeeOption
    (mkSpendInfo host request p quoteInfo fromNativeAmount toNativeAmount)
  = feeHigh
  <-> In (fromCurrencyCode request)
        ["BTC"; "BTc"; "BtC"; "Btc"; "bTC"; "bTc"; "btC"; "btc"].
Proof.
  simpl networkFeeOption.
  destruct (String.eqb_spec (toUpperCase (fromCurrencyCode request)) "BTC")
    as [Hupper | Hother].
  - split; [intros _ | reflexivity].
    destruct (fromCurrencyCode request) as [| a [| b [| c [| d rest]]]];
      try discriminate Hupper.
    simpl in Hupper. injection Hupper as Ha Hb Hc.
    apply ascii_toUpperCase_B in Ha. apply ascii_toUpperCase_T in Hb.
    apply ascii_toUpperCase_C in Hc.
    destruct Ha as [-> | ->], Hb as [-> | ->], Hc as [-> | ->];
      simpl; auto 10.
  - split; [discriminate |].
    intros Hin. exfalso. apply Hother.
    simpl in Hin.
    repeat (destruct Hin as [<- | Hin]; [reflexivity |]).
    contradiction.
Qed.

End Negotiation.

Section Configuration.

Lemma shared_value_shared_key {A B} (l : list (A * B)) x1 x2 y :
  NoDup (l.*2) -> (x1, y) ∈ l -> (x2, y) ∈ l -> x1 = x2.
Proof.
  induction l as [| [a b] l IH]; simpl; intros Hnodup H1 H2.
  - now apply elem_of_nil in H1.
  - apply NoDup_cons in Hnodup as [Hfresh Hnodup].
    apply elem_of_cons in H1 as [H1 | H1]; apply elem_of_cons in H2 as [H2 | H2].
    + congruence.
    + injection H1 as -> ->. exfalso. apply Hfresh.
      apply list_elem_of_fmap. now exists (x2, b).
    + injection H2 as -> ->. exfalso. apply Hfresh.
      apply list_elem_of_fmap. now exists (x1, b).
    + now apply IH.
Qed.

(** X14. The transcription table gives every supported chain a network code
    of its own: two chains with the same code are the same chain, so a code
    sent to the exchange names one chain only. *)
Theorem transcription_is_injective chain1 chain2 code :
  MAINNET_CODE_TRANSCRIPTION !! chain1 = Some code ->
  MAINNET_CODE_TRANSCRIPTION !! chain2 = Some code ->
  chain1 = chain2.
Proof.
  unfold MAINNET_CODE_TRANSCRIPTION. intros H1 H2.
  apply elem_of_list_to_map_2 in H1. apply elem_of_list_to_map_2 in H2.
  eapply shared_value_shared_key; [| exact H1 | exact H2].
  apply (bool_decide_unpack _). vm_compute. exact I.
Qed.

End Configuration.

Section Built.
Context {number : Type} `{JsNumber number}.
Context {World EdgeSwapRequest EdgeSwapQuote : Type}.

Local Abbreviation PluginState := (State number World).

Variable imports : Host number World EdgeSwapRequest EdgeSwapQuote.

Local Open Scope list_scope.

(** The requests of one negotiation all carry the key of the host. *)
Lemma negotiation_is_authenticated
    (host : Host number World EdgeSwapRequest EdgeSwapQuote)
    request (st : PluginState) c :
  In c (fetched (snd (getFixedQuote host request st))) ->
  In c (fetched st)
  \/ fc_headers c
     = [("Accept", "application/json"); ("Content-Type", "application/json");
        ("Authorization", apiKey host)].
Proof.
  intros Hin.
  destruct (prepareQuote host request st) as [[p | e] st0] eqn:Hprep.
  - destruct (getFixedQuote_fetched host request st st0 p Hprep) as [Hlog | Hlog];
      rewrite Hlog in Hin; apply in_app_or in Hin as [Hin | Hin];
      try (now left); right; simpl in Hin;
      repeat (destruct Hin as [<- | Hin]; [reflexivity |]); contradiction.
  - destruct (prepareQuote_Err_ends host request st st0 e Hprep) as [Hquote Hlog].
    rewrite Hquote in Hin. simpl in Hin. rewrite Hlog in Hin. now left.
Qed.

(** X15. The plugin is built exactly from options that are an object with a
    string [apiKey]: such options give the plugin whose quotes are those of
    [fetchSwapQuote] over that key and the [fetchCors] of the options (their
    [fetch] when they have none); a plugin is built from such options only;
    from any other options building it throws a [TypeError], before any
    quote is asked for. A plugin that was built sends that key as the
    [Authorization] header of every request it makes in a negotiation. *)
Theorem plugin_needs_an_api_key (opts : EdgeCorePluginOptions number World) :
  (forall plugin,
     makeExolixPlugin imports opts = Ok plugin ->
     exists key,
       isObject (initOptions opts) = true
       /\ getProp "apiKey" (initOptions opts) = JStr key
       /\ plugin_fetchSwapQuote plugin
          = fetchSwapQuote (pluginHost imports (opts_io opts) key)
       /\ forall request (st : PluginState) c,
            In c (fetched (snd (getFixedQuote
                                  (pluginHost imports (opts_io opts) key)
                                  request st))) ->
            In c (fetched st)
            \/ fc_headers c
               = [("Accept", "application/json");
                  ("Content-Type", "application/json");
                  ("Authorization", key)])
  /\ (isObject (initOptions opts) = false
      \/ (forall key, getProp "apiKey" (initOptions opts) <> JStr key) ->
      exists msg, makeExolixPlugin imports opts = Err (TypeError msg))
  /\ (forall key,
        isObject (initOptions opts) = true ->
        getProp "apiKey" (initOptions opts) = JStr key ->
        makeExolixPlugin imports opts
        = Ok {| plugin_swapInfo := swapInfo;
                plugin_fetchSwapQuote :=
                  fetchSwapQuote (pluginHost imports (opts_io opts) key) |}
        /\ apiKey (pluginHost imports (opts_io opts) key) = key
        /\ fetchCors (pluginHost imports (opts_io opts) key)
           = match io_fetchCors (opts_io opts) with
             | Some fetchCors => fetchCors
             | None => io_fetch (opts_io opts)
             end).
Proof.
  unfold makeExolixPlugin, asInitOptions, asString.
  split; [| split].
  - intros plugin Hbuilt.
    destruct (isObject (initOptions opts)); [| discriminate].
    destruct (getProp "apiKey" (initOptions opts)) as [| | | | key | |];
      try discriminate.
    simpl in Hbuilt. injection Hbuilt as <-.
    exists key. repeat split.
    intros request st c Hin.
    exact (negotiation_is_authenticated
             (pluginHost imports (opts_io opts) key) request st c Hin).
  - intros [Hobj | Hkey].
    + rewrite Hobj. eauto.
    + destruct (isObject (initOptions opts)); [| eauto].
      destruct (getProp "apiKey" (initOptions opts)) as [| | | | key | |];
        simpl; eauto.
      now destruct (Hkey key).
  - intros key Hobj Hkey. rewrite Hobj, Hkey. now repeat split.
Qed.

(** X16. The fake [random] is a counter: asked for any number of bytes it
    gives that many, the byte at each index being the index modulo 256, so
    two calls agree on their common prefix. *)
Theorem fake_random_counts (bytes : nat) :
  length (FakeIo.random bytes) = bytes
  /\ (forall i, (i < bytes)%nat ->
        nth_error (FakeIo.random bytes) i = Some (Z.of_nat i mod 256)%Z)
  /\ (forall more, firstn bytes (FakeIo.random (bytes + more)) = FakeIo.random bytes).
Proof.
  unfold FakeIo.random. repeat split.
  - now rewrite length_map, length_seq.
  - intros i Hi. rewrite nth_error_map, nth_error_seq.
    destruct (Nat.ltb_spec i bytes); [reflexivity | lia].
  - intros more. rewrite firstn_map, seq_app, firstn_app, length_seq.
    rewrite Nat.sub_diag. simpl. rewrite app_nil_r.
    now rewrite firstn_all2 by (rewrite length_seq; lia).
Qed.

(** X17. Over the fake IO every negotiation stops at the rate call: the fake
    fetch answers with an empty object, which is no rate response, so once
    the wallets have answered the negotiation ends with a [TypeError], the
    cleaner's; it has made one GET, no binding call, and the fake fetch has
    not moved the world. *)
Theorem fake_io_never_quotes key request (st st0 : PluginState) p :
  let host := pluginHost imports FakeIo.makeFakeIo key in
  prepareQuote host request st = (Ok p, st0) ->
  exists msg,
    getFixedQuote host request st
    = (Err (TypeError msg),
       {| world := world st0;
          fetched := fetched st ++ [fetchArgs host GET "rate" (quoteParams p)] |}).
Proof.
  intros host Hprep.
  destruct (asRateResponse (JObj [] : JsValue number)) as [r | msg] eqn:Hshape;
    [discriminate Hshape |].
  exists msg.
  exact (refused_rate_body_ends host request st st0 p
           (FakeIo.asEdgeFetchResponse FakeIo.fakeResponse) (world st0)
           (JObj []) msg Hprep eq_refl eq_refl eq_refl Hshape).
Qed.

End Built.

(** ** The properties on the concrete world *)

Module Runs.
Import Sim.
Local Open Scope Z_scope.

(** Closes [m st = (Ok ?x, ?st')] for a concrete run [m st] by reducing the
    run to its result and final state. *)
Ltac ran :=
  lazymatch goal with
  | |- ?computation = _ =>
      let outcome := eval hnf in computation in
      lazymatch outcome with
      | (?res, ?final) =>
          let res' := eval hnf in res in
          let final' := eval vm_compute in final in
          exact (eq_refl : computation = (res', final'))
      end
  end.

Lemma minimum_check_follows_quote_direction_witness :
  (fst (getFixedQuote exchange fiveBtcIn start)
   = Err (SwapBelowLimitError swapInfo 1000000000 dirFrom)
   /\ map fc_method (fetched (snd (getFixedQuote exchange fiveBtcIn start)))
      = [GET])
  /\ fst (getFixedQuote exchange oneEthOut start)
     = Err (SwapBelowLimitError swapInfo 2000000000 dirTo).
Proof.
  split.
  - edestruct (minimum_check_follows_quote_direction exchange fiveBtcIn start)
      as [Hfrom _]; [ran | ran |].
    edestruct Hfrom as [Hquote _]; [reflexivity | reflexivity | reflexivity |].
    now rewrite Hquote.
  - edestruct (minimum_check_follows_quote_direction exchange oneEthOut start)
      as [_ Hto]; [ran | ran |].
    edestruct Hto as [Hquote _]; [reflexivity | reflexivity | reflexivity |].
    now rewrite Hquote.
Defined.

(** The body of an error response matters only at status 422. *)
Lemma rate_body_with_status_500_is_an_error :
  ok (answer false 500 underMinimum) = false
  /\ asRateResponse underMinimum
     = Ok {| minAmount := 10; withdrawMin := 2; fromAmount := 5; toAmount := 80;
             message := inl "Amount is less than the minimum" |}
  /\ fst (call (exchangeAnswering 500 underMinimum) fiveBtcIn GET "rate" [] start)
     = Err (ProviderError 500)
  /\ fst (getFixedQuote (exchangeAnswering 500 underMinimum) fiveBtcIn start)
     = Err (Error "Exolix returned error code 500").
Proof. repeat split. Qed.

Lemma unprocessable_rate_body_is_a_quote_witness :
  fst (call (exchangeAnswering 422 underMinimum) fiveBtcIn GET "rate" [] start)
  = Ok underMinimum
  /\ fst (getFixedQuote (exchangeAnswering 422 underMinimum) fiveBtcIn start)
     = Err (SwapBelowLimitError swapInfo 1000000000 dirFrom)
  /\ fst (call (exchangeAnswering 500 underMinimum) fiveBtcIn GET "rate" [] start)
     = Err (Error "Exolix returned error code 500").
Proof.
  split; [| split].
  - destruct (unprocessable_rate_body_is_a_quote (exchangeAnswering 422 underMinimum))
      as (Hcall & _ & _).
    now rewrite (Hcall fiveBtcIn GET "rate" [] start
                   (answer false 422 underMinimum) _ underMinimum _
                   eq_refl eq_refl eq_refl eq_refl eq_refl).
  - destruct (unprocessable_rate_body_is_a_quote (exchangeAnswering 422 underMinimum))
      as (_ & Hquote & _).
    eassert (Hprep : prepareQuote (exchangeAnswering 422 underMinimum) fiveBtcIn
                       start = (Ok _, _)) by ran.
    now rewrite (Hquote fiveBtcIn start _ _
                   (answer false 422 underMinimum) _ underMinimum _
                   Hprep eq_refl eq_refl eq_refl eq_refl eq_refl).
  - destruct (unprocessable_rate_body_is_a_quote (exchangeAnswering 500 underMinimum))
      as (_ & _ & Hother).
    assert (Hstatus : status (answer false 500 underMinimum) <> 422)
      by discriminate.
    now rewrite (Hother fiveBtcIn GET "rate" [] start
                   (answer false 500 underMinimum) _ eq_refl eq_refl Hstatus).
Defined.



(** A deposit on ripple for a payout in bitcoin: the memo has the type of
    ripple, the source chain. *)
Lemma memo_type_is_not_that_of_the_payout_chain :
  assembled (fun order => memos (spendInfo order))
    (getFixedQuote taggedExchange fiftyXrpIn start)
  = Some [{| memo_type := memoNumber; memo_value := "777" |}]
  /\ memoType taggedExchange (currencyInfo_pluginId (toWallet fiftyXrpIn))
     = memoText
  /\ memoType taggedExchange (currencyInfo_pluginId (fromWallet fiftyXrpIn))
     = memoNumber.
Proof. repeat split. Qed.

Lemma memo_follows_deposit_extra_id_witness :
  assembled (fun order => memos (spendInfo order))
    (assembleOrder taggedExchange fiftyXrpIn fiftyXrpPrepared taggedOrder start)
  = Some [{| memo_type := memoNumber; memo_value := "777" |}]
  /\ assembled (fun order => memos (spendInfo order))
       (assembleOrder exchange fiftyXrpIn fiftyXrpPrepared untaggedOrder start)
     = Some [].
Proof.
  split.
  - edestruct (memo_follows_deposit_extra_id taggedExchange fiftyXrpIn
                 fiftyXrpPrepared taggedOrder start) as [_ Hsome];
      [ran |].
    exact (eq_trans eq_refl (f_equal Some (Hsome "777" eq_refl))).
  - edestruct (memo_follows_deposit_extra_id exchange fiftyXrpIn
                 fiftyXrpPrepared untaggedOrder start) as [Hnone _];
      [ran |].
    exact (eq_trans eq_refl (f_equal Some (Hnone eq_refl))).
Defined.

Lemma unsupported_currency_rejected_before_any_fetch_witness :
  fetchSwapQuote exchange intoZcash start
  = (Err (SwapCurrencyError swapInfo intoZcash), start)
  /\ fetchSwapQuote exchange fromPolygon start
     = (Err (SwapCurrencyError swapInfo fromPolygon), start)
  /\ fetchSwapQuote exchange fromZcash start
     = (Err (SwapCurrencyError swapInfo fromZcash), start).
Proof.
  split; [| split].
  - apply (unsupported_currency_rejected_before_any_fetch exchange intoZcash).
    right. right. right. reflexivity.
  - apply (unsupported_currency_rejected_before_any_fetch exchange fromPolygon).
    left. reflexivity.
  - apply (unsupported_currency_rejected_before_any_fetch exchange fromZcash).
    right. right. left. reflexivity.
Defined.

(** An output quote of 3 ETH: both calls carry the 3 under [amount] as well
    as under [withdrawalAmount]. *)
Lemma output_quote_is_also_sent_as_amount :
  quoteFor threeEthOut = quoteTo
  /\ map fc_method (fetched (snd (getFixedQuote exchange threeEthOut start)))
     = [GET; POST]
  /\ map (fun c => lookupProp "amount" (sentParams c))
       (fetched (snd (getFixedQuote exchange threeEthOut start)))
     = [JNum 3; JNum 3]
  /\ map (fun c => lookupProp "withdrawalAmount" (sentParams c))
       (fetched (snd (getFixedQuote exchange threeEthOut start)))
     = [JNum 3; JNum 3].
Proof.
  split; [reflexivity |].
  split; [| split]; vm_compute; reflexivity.
Qed.

Lemma amount_parameter_follows_direction_witness :
  (map (fun c => (fc_method c, lookupProp "withdrawalAmount" (sentParams c)))
     (fetched (snd (getFixedQuote exchange threeEthOut start)))
   = [(GET, JNum 3); (POST, JNum 3)])
  /\ (map (fun c => (fc_method c, lookupProp "amount" (sentParams c)))
        (fetched (snd (getFixedQuote exchange twentyBtcIn start)))
      = [(GET, JNum 20); (POST, JNum 20)]
      /\ hasProp "withdrawalAmount" (quoteParams twentyBtcPrepared) = false).
Proof.
  split.
  - assert (Hprep : prepareQuote exchange threeEthOut start
                    = (Ok threeEthPrepared, {| world := 1009; fetched := [] |}))
      by (vm_compute; reflexivity).
    destruct (amount_parameter_follows_direction exchange threeEthOut start
                _ threeEthPrepared Hprep)
      as ((Hpassed & _ & _) & Hquery & Hbody & _ & _ & Hto & _).
    destruct (Hto eq_refl) as (Hrate & Hcreate).
    eassert (Hrated : getRate exchange threeEthOut (quoteParams threeEthPrepared)
                        {| world := 1009; fetched := [] |} = (Ok _, _)) by ran.
    match type of Hrated with
    | _ = (Ok ?r, ?st1) =>
        eassert (Hcheck : checkRateMinimum threeEthOut r st1 = (Ok tt, _)) by ran
    end.
    rewrite (Hpassed _ _ _ Hrated Hcheck). cbn [app map fetched start].
    now rewrite Hquery, Hbody, Hrate, Hcreate.
  - assert (Hprep : prepareQuote exchange twentyBtcIn start
                    = (Ok twentyBtcPrepared, {| world := 1007; fetched := [] |}))
      by (vm_compute; reflexivity).
    destruct (amount_parameter_follows_direction exchange twentyBtcIn start
                _ twentyBtcPrepared Hprep)
      as ((Hpassed & _ & _) & Hquery & Hbody & Hrate & Hcreate & _ & Hfrom & _).
    assert (Hdirection : quoteFor twentyBtcIn <> quoteTo) by discriminate.
    destruct (Hfrom Hdirection) as (Hnone & _).
    split; [| exact Hnone].
    eassert (Hrated : getRate exchange twentyBtcIn (quoteParams twentyBtcPrepared)
                        {| world := 1007; fetched := [] |} = (Ok _, _)) by ran.
    match type of Hrated with
    | _ = (Ok ?r, ?st1) =>
        eassert (Hcheck : checkRateMinimum twentyBtcIn r st1 = (Ok tt, _)) by ran
    end.
    rewrite (Hpassed _ _ _ Hrated Hcheck). cbn [app map fetched start].
    now rewrite Hquery, Hbody, Hrate, Hcreate.
Defined.

Lemma missing_withdrawMin_defaults_to_zero_witness :
  map fc_method
    (fetched (snd (getFixedQuote exchangeWithoutOutputMinimum oneEthOut start)))
  = [GET; POST].
Proof.
  edestruct (missing_withdrawMin_defaults_to_zero exchangeWithoutOutputMinimum
               oneEthOut start) as [_ Hgoes];
    [ reflexivity | ran | ran | | | ].
  3: { edestruct Hgoes as (_ & _ & Hlog); [ran | discriminate |].
       exact (eq_trans (f_equal (map fc_method) Hlog) eq_refl). }
  - reflexivity.
  - match goal with
    | |- ?cleaned = _ =>
        let r := eval hnf in cleaned in exact (eq_refl : cleaned = r)
    end.
Defined.

Lemma expiration_is_construction_plus_60s_witness :
  assembled expirationDate (getFixedQuote exchange twentyBtcIn start)
  = Some 61104
  /\ world (snd (getFixedQuote exchange twentyBtcIn start)) = 1104.
Proof.
  eassert (Hq : getFixedQuote exchange twentyBtcIn start = (Ok _, _)) by ran.
  pose proof (expiration_is_construction_plus_60s exchange twentyBtcIn start
                _ _ Hq) as Hdate.
  split.
  - exact (eq_trans eq_refl (f_equal Some Hdate)).
  - reflexivity.
Defined.

Lemma fee_is_high_exactly_for_BTC_witness :
  assembled (fun order => networkFeeOption (spendInfo order))
    (getFixedQuote exchange twentyBtcIn start)
  = Some feeHigh
  /\ assembled (fun order => networkFeeOption (spendInfo order))
       (getFixedQuote exchange fiftyXrpIn start)
     = Some feeStandard.
Proof.
  split.
  - eassert (Hq : getFixedQuote exchange twentyBtcIn start = (Ok _, _)) by ran.
    destruct (fee_is_high_exactly_for_BTC exchange twentyBtcIn start _ _ Hq)
      as [[_ Hhigh] _].
    exact (eq_trans eq_refl (f_equal Some (Hhigh eq_refl))).
  - eassert (Hq : getFixedQuote exchange fiftyXrpIn start = (Ok _, _)) by ran.
    destruct (fee_is_high_exactly_for_BTC exchange fiftyXrpIn start _ _ Hq)
      as [_ Hstandard].
    assert (Hxrp : toUpperCase (fromCurrencyCode fiftyXrpIn) <> "BTC")
      by discriminate.
    exact (eq_trans eq_refl (f_equal Some (Hstandard Hxrp))).
Defined.

Lemma otherQuote_agrees :
  rateAnswersAgree (fetchCors exchange) (server (answer true 200 otherQuote) bound).
Proof.
  intros c w. unfold exchange, host, fetchCors, server.
  destruct (fc_method c) eqn:Hmethod; [| now left].
  destruct (String.eqb_spec (fc_url c) (uri +:+ "rate")) as [Hurl | Hurl];
    [| now left].
  right. repeat split; [exact Hurl |].
  exists (answer true 200 usualRate), (answer true 200 otherQuote),
    (w + 40), usualRate, otherQuote.
  repeat split.
  eexists. eexists. repeat split.
Defined.

Lemma quoted_amounts_of_rate_response_are_unused_witness :
  getFixedQuote (withFetch exchange (server (answer true 200 otherQuote) bound))
    twentyBtcIn start
  = getFixedQuote exchange twentyBtcIn start.
Proof.
  exact (proj1 (quoted_amounts_of_rate_response_are_unused exchange _
                  otherQuote_agrees twentyBtcIn start)).
Defined.

End Runs.

(** ** The further properties on the concrete world *)

Module MoreRuns.
Import Sim Cases.
Local Open Scope Z_scope.

Lemma bad_rate_body_ends_negotiation_witness :
  fst (getFixedQuote exchangeQuotingBadly twentyBtcIn start)
  = Err (TypeError "Expected a number").
Proof.
  assert (Hprep : prepareQuote exchangeQuotingBadly twentyBtcIn start
                  = (Ok twentyBtcPrepared, {| world := 1007; fetched := [] |}))
    by (vm_compute; reflexivity).
  destruct (bad_rate_body_ends_negotiation exchangeQuotingBadly twentyBtcIn
              start _ twentyBtcPrepared (answer true 200 pairDisabled) 1047
              Hprep eq_refl) as [Hshape _].
  now rewrite (Hshape eq_refl pairDisabled _ eq_refl eq_refl).
Defined.

Lemma rejected_rate_fetch_ends_negotiation_witness :
  getFixedQuote (withFetch exchange offline) twentyBtcIn start
  = (Err (FetchRejection "network down"),
     {| world := 1016;
        fetched := [fetchArgs exchange GET "rate" (quoteParams twentyBtcPrepared)] |}).
Proof.
  assert (Hprep : prepareQuote (withFetch exchange offline) twentyBtcIn start
                  = (Ok twentyBtcPrepared, {| world := 1007; fetched := [] |}))
    by (vm_compute; reflexivity).
  exact (rejected_rate_fetch_ends_negotiation (withFetch exchange offline)
           twentyBtcIn start _ twentyBtcPrepared "network down" 1016
           Hprep eq_refl).
Defined.


(** A request of exactly the minimum is served. *)
Lemma order_only_at_or_above_minimum_witness :
  length (fetched (snd (getFixedQuote exchange tenBtcIn start))) = 2%nat.
Proof.
  eassert (Hq : getFixedQuote exchange tenBtcIn start = (Ok _, _)) by Runs.ran.
  destruct (order_only_at_or_above_minimum exchange tenBtcIn start _ _ Hq)
    as (p & st0 & r & st1 & nativeMin & w & _ & _ & _ & _ & Hlog).
  rewrite Hq. cbn [snd]. now rewrite Hlog.
Defined.

Lemma invalid_binding_answer_loses_the_order_witness :
  fst (getFixedQuote exchangeBindingBadly twentyBtcIn start)
  = Err (TypeError "Expected a number")
  /\ map fc_method (fetched (snd (getFixedQuote exchangeBindingBadly twentyBtcIn start)))
     = [GET; POST].
Proof.
  assert (Hprep : prepareQuote exchangeBindingBadly twentyBtcIn start
                  = (Ok twentyBtcPrepared, {| world := 1007; fetched := [] |}))
    by (vm_compute; reflexivity).
  eassert (Hrate : getRate exchangeBindingBadly twentyBtcIn
                     (quoteParams twentyBtcPrepared)
                     {| world := 1007; fetched := [] |} = (Ok _, _))
    by Runs.ran.
  match type of Hrate with
  | _ = (Ok ?r, ?st1) =>
      eassert (Hcheck : checkRateMinimum twentyBtcIn r st1 = (Ok tt, _))
        by Runs.ran
  end.
  erewrite (invalid_binding_answer_loses_the_order exchangeBindingBadly
              twentyBtcIn start _ _ _ twentyBtcPrepared _
              (answer true 200 (JObj [("id", JStr "ex1a2b")])) _ _ _
              Hprep Hrate Hcheck eq_refl eq_refl eq_refl eq_refl).
  now split.
Defined.

Lemma order_agrees_with_binding_call_witness :
  assembled (fun order => payoutAddress (savedAction (spendInfo order)))
    (getFixedQuote exchange twentyBtcIn start)
  = Some "address of wallet-eth".
Proof.
  eassert (Hq : getFixedQuote exchange twentyBtcIn start = (Ok _, _)) by Runs.ran.
  destruct (order_agrees_with_binding_call exchange twentyBtcIn start _ _ Hq)
    as (rateParams & orderParams & w1 & w2 & _ & _ & Hto & _).
  pose proof (f_equal (fun outcome => match fst outcome with
                                      | Ok address => Some address
                                      | Err _ => None
                                      end) Hto) as Hpayout.
  exact (eq_trans eq_refl (eq_sym Hpayout)).
Defined.

Lemma binding_call_repeats_the_rate_call_witness :
  lookupProp "coinFromNetwork" (quoteParams twentyBtcPrepared) = JStr "BTC"
  /\ lookupProp "networkFrom" (mkExchangeParams twentyBtcIn twentyBtcPrepared)
     = JStr "BTC".
Proof.
  assert (Hprep : prepareQuote exchange twentyBtcIn start
                  = (Ok twentyBtcPrepared, {| world := 1007; fetched := [] |}))
    by (vm_compute; reflexivity).
  destruct (binding_call_repeats_the_rate_call exchange twentyBtcIn start _
              twentyBtcPrepared Hprep) as (_ & Hnetwork & _).
  exact Hnetwork.
Defined.

Lemma max_request_is_half_an_output_quote_witness :
  hasProp "withdrawalAmount" (quoteParams allBtcPrepared) = false
  /\ fst (checkRateMinimum allBtc fiveOut start)
     = Err (SwapBelowLimitError swapInfo 5000000000 dirTo).
Proof.
  assert (Hprep : prepareQuote exchange allBtc start
                  = (Ok allBtcPrepared, {| world := 1009; fetched := [] |}))
    by (vm_compute; reflexivity).
  destruct (max_request_is_half_an_output_quote exchange allBtc start _
              allBtcPrepared eq_refl Hprep) as (_ & _ & Hnone & _ & Hcheck).
  split; [exact Hnone |].
  exact (Hcheck fiveOut start 5000000000 1007 eq_refl eq_refl).
Defined.

Lemma transcription_is_injective_witness :
  MAINNET_CODE_TRANSCRIPTION !! "ripple" = Some "XRP" /\ "ripple" = "ripple".
Proof.
  split; [reflexivity |].
  exact (transcription_is_injective "ripple" "ripple" "XRP" eq_refl eq_refl).
Defined.

Lemma plugin_needs_an_api_key_witness :
  (exists msg, makeExolixPlugin exchange optionsWithoutKey = Err (TypeError msg))
  /\ makeExolixPlugin exchange goodOptions
     = Ok {| plugin_swapInfo := swapInfo;
             plugin_fetchSwapQuote :=
               fetchSwapQuote (pluginHost exchange FakeIo.makeFakeIo "secret") |}
  /\ fetched (snd (getFixedQuote (pluginHost exchange FakeIo.makeFakeIo "secret")
                     twentyBtcIn start))
     = [twentyBtcRateCall]
  /\ forall c,
       In c (fetched (snd (getFixedQuote
                             (pluginHost exchange FakeIo.makeFakeIo "secret")
                             twentyBtcIn start))) ->
       fc_headers c
       = [("Accept", "application/json"); ("Content-Type", "application/json");
          ("Authorization", "secret")].
Proof.
  split; [| split; [| split]].
  - apply (proj1 (proj2 (plugin_needs_an_api_key exchange optionsWithoutKey))).
    right. intros key. discriminate.
  - exact (proj1 (proj2 (proj2 (plugin_needs_an_api_key exchange goodOptions))
                    "secret" eq_refl eq_refl)).
  - vm_compute. reflexivity.
  - intros c Hin.
    destruct (proj1 (plugin_needs_an_api_key exchange goodOptions) _ eq_refl)
      as (key & _ & Hkey & _ & Hheaders).
    injection Hkey as <-.
    destruct (Hheaders twentyBtcIn start c Hin) as [Hold | Hnew];
      [destruct Hold | exact Hnew].
Defined.

Lemma fake_io_never_quotes_witness :
  exists msg,
    getFixedQuote (pluginHost exchange FakeIo.makeFakeIo "secret") twentyBtcIn start
    = (Err (TypeError msg), {| world := 1007; fetched := [twentyBtcRateCall] |}).
Proof.
  assert (Hprep : prepareQuote (pluginHost exchange FakeIo.makeFakeIo "secret")
                    twentyBtcIn start
                  = (Ok twentyBtcPrepared, {| world := 1007; fetched := [] |}))
    by (vm_compute; reflexivity).
  exact (fake_io_never_quotes exchange "secret" twentyBtcIn start _
           twentyBtcPrepared Hprep).
Defined.


End MoreRuns.
